(** * Nmap-CDIR-Scanner: a shallow embedding of [scanner.py]

    The script prompts for a CIDR range and an output format, runs the
    external [nmap] tool and reports.  Its own logic is input validation,
    file-name generation, the construction of one command line and a
    progress counter driven by the tool's output lines.

    Conventions of the embedding:
    - a Python [str] typed by the user or built by the script is a
      [string]; each [ascii] stands for the code point of the same number
      (U+0000 .. U+00FF);
    - a Python [int] is a [Z];
    - an exception is a value of [exn]; a call that can raise returns a
      [result];
    - printing, prompting and process creation are recorded as a list of
      [event]s, in program order;
    - what the script reads from its environment (keyboard lines, the clock,
      the file system, the answers of nmap) is an explicit argument;
    - the script opens no file itself: what the nmap runs it starts do to
      the files is a parameter of the statements about files. *)

From Stdlib Require Import ZArith Lia Strings.Ascii Strings.String Strings.Byte.
From stdpp Require Import base tactics option list numbers strings gmap.

Local Open Scope Z_scope.

(** ** Exceptions and results *)

Inductive exn :=
| EOFError
| KeyError
| ValueError
| AddressValueError
| NetmaskValueError
| UnicodeDecodeError
| PortScannerError
| AssertionError.

(** [except ValueError] catches [ValueError] and its subclasses. *)
Definition is_ValueError (e : exn) : bool :=
  match e with
  | ValueError | AddressValueError | NetmaskValueError | UnicodeDecodeError => true
  | EOFError | KeyError | PortScannerError | AssertionError => false
  end.

Inductive result (A : Type) :=
| Ok (a : A)
| Raise (e : exn).
Arguments Ok {A} a.
Arguments Raise {A} e.

Definition rbind {A B} (r : result A) (f : A -> result B) : result B :=
  match r with
  | Ok a => f a
  | Raise e => Raise e
  end.

Notation "x <-? r ; k" := (rbind r (fun x => k))
  (at level 100, r at next level, right associativity, only parsing).

(** ** Python's built-in string operations *)

Module Py.

Definition ord (c : ascii) : Z := Z.of_N (N_of_ascii c).

(** [str.isspace] on one character: the white-space code points below
    U+0100 are TAB..CR, FS..US, SPACE, NEL and NBSP. *)
Definition isspace (c : ascii) : bool :=
  let n := ord c in
  ((9 <=? n) && (n <=? 13)) || ((28 <=? n) && (n <=? 32))
  || (n =? 133) || (n =? 160).

Fixpoint lstrip (s : string) : string :=
  match s with
  | EmptyString => EmptyString
  | String c s' => if isspace c then lstrip s' else s
  end.

(** Removes trailing white space: a character is dropped when it and
    everything after it is white space. *)
Fixpoint rstrip (s : string) : string :=
  match s with
  | EmptyString => EmptyString
  | String c s' =>
      match rstrip s' with
      | EmptyString => if isspace c then EmptyString else String c EmptyString
      | r => String c r
      end
  end.

(** [s.strip()] *)
Definition strip (s : string) : string := rstrip (lstrip s).

(** [str.lower] on one character: A..Z, and the upper-case letters of the
    Latin-1 block (U+00C0..U+00DE but the multiplication sign U+00D7),
    move 32 code points up. *)
Definition lower_char (c : ascii) : ascii :=
  let n := ord c in
  if ((65 <=? n) && (n <=? 90))
     || ((192 <=? n) && (n <=? 222) && negb (n =? 215))
  then ascii_of_N (Z.to_N (n + 32))
  else c.

Fixpoint lower (s : string) : string :=
  match s with
  | EmptyString => EmptyString
  | String c s' => String (lower_char c) (lower s')
  end.

(** [s.split(sep)] for a one-character separator: always at least one
    field, empty fields kept. *)
Fixpoint split (sep : ascii) (s : string) : list string :=
  match s with
  | EmptyString => [EmptyString]
  | String c s' =>
      if Ascii.eqb c sep then EmptyString :: split sep s'
      else match split sep s' with
           | h :: t => String c h :: t
           | [] => [String c EmptyString]
           end
  end.

(** [s.startswith(p)] *)
Fixpoint startswith (p s : string) : bool :=
  match p, s with
  | EmptyString, _ => true
  | String a p', String b s' => Ascii.eqb a b && startswith p' s'
  | String _ _, EmptyString => false
  end.

(** [p in s] for strings. *)
Fixpoint contains (p s : string) : bool :=
  startswith p s ||
  match s with
  | EmptyString => false
  | String _ s' => contains p s'
  end.

(** [s.replace(old, new)] for a non-empty [old]: occurrences are found
    from the left and do not overlap.  [skip] counts the characters of
    the occurrence just replaced that are still to be passed over. *)
Fixpoint replace_go (old new : string) (skip : nat) (s : string) : string :=
  match s with
  | EmptyString => EmptyString
  | String c s' =>
      match skip with
      | S k => replace_go old new k s'
      | O =>
          if startswith old s
          then new +:+ replace_go old new (String.length old - 1) s'
          else String c (replace_go old new 0 s')
      end
  end.

(** With an empty [old], [new] is inserted before every character and at
    the end. *)
Fixpoint intersperse (new s : string) : string :=
  match s with
  | EmptyString => new
  | String c s' => new +:+ String c (intersperse new s')
  end.

Definition replace (old new s : string) : string :=
  match old with
  | EmptyString => intersperse new s
  | String _ _ => replace_go old new 0 s
  end.

(** [str.isascii]: every code point is below U+0080 (true of the empty
    string). *)
Fixpoint isascii (s : string) : bool :=
  match s with
  | EmptyString => true
  | String c s' => (ord c <? 128) && isascii s'
  end.

(** [str.isdigit] on one character: 0..9 and the superscripts
    U+00B2, U+00B3, U+00B9. *)
Definition isdigit_char (c : ascii) : bool :=
  let n := ord c in
  ((48 <=? n) && (n <=? 57)) || (n =? 178) || (n =? 179) || (n =? 185).

Fixpoint all_digit (s : string) : bool :=
  match s with
  | EmptyString => true
  | String c s' => isdigit_char c && all_digit s'
  end.

(** [str.isdigit]: non-empty and every character a digit. *)
Definition isdigit (s : string) : bool :=
  match s with
  | EmptyString => false
  | String _ _ => all_digit s
  end.

(** The value of a string of ASCII decimal digits, most significant
    digit first. *)
Fixpoint int_from (acc : Z) (s : string) : Z :=
  match s with
  | EmptyString => acc
  | String c s' => int_from (acc * 10 + (ord c - 48)) s'
  end.

Definition int_value (s : string) : Z := int_from 0 s.

(** [sys.get_int_max_str_digits()], as CPython sets it. *)
Definition int_max_str_digits : Z := 4300.

(** [int(s)] on a string of ASCII decimal digits, the only strings the
    program passes to it (each call is guarded by [isascii] and
    [isdigit]): [ValueError] beyond the digit limit. *)
Definition int (s : string) : result Z :=
  if int_max_str_digits <? Z.of_nat (String.length s) then Raise ValueError
  else Ok (int_value s).

Definition digit_char (d : Z) : ascii := ascii_of_N (Z.to_N (48 + d)).

(** The decimal digits of a non-negative [n] in front of [acc]; [fuel]
    bounds the number of digits, and a number has no more decimal digits
    than binary ones. *)
Fixpoint digits (fuel : nat) (n : Z) (acc : string) : string :=
  match fuel with
  | O => acc
  | S fuel' =>
      let acc' := String (digit_char (n mod 10)) acc in
      if n <? 10 then acc' else digits fuel' (n / 10) acc'
  end.

(** [str(n)] for an [int]. *)
Definition str (n : Z) : string :=
  if n <? 0
  then String "-" (digits (S (Z.to_nat (Z.log2 (- n)))) (- n) EmptyString)
  else digits (S (Z.to_nat (Z.log2 n))) n EmptyString.

(** ["0" * k] *)
Fixpoint zeros (k : nat) : string :=
  match k with
  | O => EmptyString
  | S k' => String "0" (zeros k')
  end.

(** [str(n).zfill(width)] for a non-negative [n], as the numeric
    directives of [strftime] print their fields. *)
Definition zfill (width : nat) (n : Z) : string :=
  let s := str n in
  zeros (width - String.length s) +:+ s.

End Py.

(** ** The standard library's [ipaddress.IPv4Network]

    [validate_cidr] is a call of [ipaddress.IPv4Network(cidr)] (strict mode,
    the default).  The functions below follow CPython's [Lib/ipaddress.py],
    each under the name it has there. *)

Module ipaddress.
Import Py.

Definition _max_prefixlen : Z := 32.
Definition _ALL_ONES : Z := 2 ^ 32 - 1.

(** The mask argument of [_make_netmask]: the integer [_max_prefixlen]
    when the string has no ["/"], the text after the ["/"] otherwise. *)
Inductive mask_arg :=
| MaskInt (n : Z)
| MaskStr (s : string).

Definition _split_optional_netmask (address : string) : result (list string) :=
  let addr := split "/" address in
  if (2 <? length addr)%nat then Raise AddressValueError else Ok addr.

Definition _split_addr_prefix (address : string) : result (string * mask_arg) :=
  address <-? _split_optional_netmask address;
  match address with
  | [addr; mask] => Ok (addr, MaskStr mask)
  | addr :: _ => Ok (addr, MaskInt _max_prefixlen)
  | [] => Raise AddressValueError
  end.

Definition _parse_octet (octet_str : string) : result Z :=
  if String.eqb octet_str "" then Raise ValueError
  else if negb (isascii octet_str && isdigit octet_str) then Raise ValueError
  else if (3 <? String.length octet_str)%nat then Raise ValueError
  else if negb (String.eqb octet_str "0") && startswith "0" octet_str
       then Raise ValueError
  else
    octet_int <-? int octet_str;
    if 255 <? octet_int then Raise ValueError else Ok octet_int.

(** [int.from_bytes(map(cls._parse_octet, octets), 'big')]: the octets are
    parsed from the left and the first failure is raised. *)
Fixpoint from_octets (acc : Z) (octets : list string) : result Z :=
  match octets with
  | [] => Ok acc
  | o :: rest =>
      n <-? _parse_octet o;
      from_octets (acc * 256 + n) rest
  end.

Definition _ip_int_from_string (ip_str : string) : result Z :=
  if String.eqb ip_str "" then Raise AddressValueError
  else
    let octets := split "." ip_str in
    if negb (length octets =? 4)%nat then Raise AddressValueError
    else
      match from_octets 0 octets with
      | Ok n => Ok n
      | Raise e => if is_ValueError e then Raise AddressValueError else Raise e
      end.

(** [IPv4Address(address)] for a string. *)
Definition IPv4Address (address : string) : result Z :=
  if contains "/" address then Raise AddressValueError
  else _ip_int_from_string address.

Definition _prefix_from_prefix_string (prefixlen_str : string) : result Z :=
  if negb (isascii prefixlen_str && isdigit prefixlen_str)
  then Raise NetmaskValueError
  else
    match int prefixlen_str with
    | Raise _ => Raise NetmaskValueError
    | Ok prefixlen =>
        if negb ((0 <=? prefixlen) && (prefixlen <=? _max_prefixlen))
        then Raise NetmaskValueError
        else Ok prefixlen
    end.

(** [int.bit_length] *)
Definition bit_length (n : Z) : Z :=
  if n =? 0 then 0 else Z.log2 (Z.abs n) + 1.

Definition _count_righthand_zero_bits (number bits : Z) : Z :=
  if number =? 0 then bits
  else Z.min bits (bit_length (Z.land (Z.lnot number) (number - 1))).

Definition _prefix_from_ip_int (ip_int : Z) : result Z :=
  let trailing_zeroes := _count_righthand_zero_bits ip_int _max_prefixlen in
  let prefixlen := _max_prefixlen - trailing_zeroes in
  let leading_ones := Z.shiftr ip_int trailing_zeroes in
  let all_ones := Z.shiftl 1 prefixlen - 1 in
  if negb (leading_ones =? all_ones) then Raise ValueError
  else Ok prefixlen.

Definition _prefix_from_ip_string (ip_str : string) : result Z :=
  match _ip_int_from_string ip_str with
  | Raise _ => Raise NetmaskValueError
  | Ok ip_int =>
      match _prefix_from_ip_int ip_int with
      | Ok prefixlen => Ok prefixlen
      | Raise _ =>
          let ip_int := Z.lxor ip_int _ALL_ONES in
          match _prefix_from_ip_int ip_int with
          | Ok prefixlen => Ok prefixlen
          | Raise _ => Raise NetmaskValueError
          end
      end
  end.

Definition _ip_int_from_prefix (prefixlen : Z) : Z :=
  Z.lxor _ALL_ONES (Z.shiftr _ALL_ONES prefixlen).

(** Returns the netmask (as an integer) and the prefix length. *)
Definition _make_netmask (arg : mask_arg) : result (Z * Z) :=
  prefixlen <-?
    match arg with
    | MaskInt prefixlen =>
        if negb ((0 <=? prefixlen) && (prefixlen <=? _max_prefixlen))
        then Raise NetmaskValueError
        else Ok prefixlen
    | MaskStr arg =>
        match _prefix_from_prefix_string arg with
        | Ok prefixlen => Ok prefixlen
        | Raise _ => _prefix_from_ip_string arg
        end
    end;
  Ok (_ip_int_from_prefix prefixlen, prefixlen).

(** The network built by [IPv4Network(address)]. *)
Record network := { network_address : Z; netmask : Z; prefixlen : Z }.

(** [IPv4Network(address, strict=True)] for a string. *)
Definition IPv4Network (address : string) : result network :=
  am <-? _split_addr_prefix address;
  let '(addr, mask) := am in
  network_address <-? IPv4Address addr;
  np <-? _make_netmask mask;
  let '(netmask, prefixlen) := np in
  let packed := network_address in
  if negb (Z.land packed netmask =? packed) then Raise ValueError
  else Ok {| network_address := network_address;
             netmask := netmask; prefixlen := prefixlen |}.

End ipaddress.

(** ** [datetime.now().strftime] *)

Module datetime.
Import Py.

Record datetime := {
  year : Z; month : Z; day : Z;
  hour : Z; minute : Z; second : Z
}.

(** The fields of a [datetime] the clock can return; [%Y] prints four
    digits for the years from 1000 on. *)
Definition valid (d : datetime) : Prop :=
  1000 <= year d <= 9999 /\ 1 <= month d <= 12 /\ 1 <= day d <= 31 /\
  0 <= hour d <= 23 /\ 0 <= minute d <= 59 /\ 0 <= second d <= 59.

(** [d.strftime(fmt)] for the directives [%Y %m %d %H %M %S] and [%%];
    every other character is copied. *)
Fixpoint strftime (d : datetime) (fmt : string) : string :=
  match fmt with
  | EmptyString => EmptyString
  | String "%" (String c rest) =>
      (if Ascii.eqb c "Y" then zfill 4 (year d)
       else if Ascii.eqb c "m" then zfill 2 (month d)
       else if Ascii.eqb c "d" then zfill 2 (day d)
       else if Ascii.eqb c "H" then zfill 2 (hour d)
       else if Ascii.eqb c "M" then zfill 2 (minute d)
       else if Ascii.eqb c "S" then zfill 2 (second d)
       else if Ascii.eqb c "%" then "%"
       else String "%" (String c EmptyString))
      +:+ strftime d rest
  | String c rest => String c (strftime d rest)
  end.

End datetime.

(** ** Decoding the bytes of a process's output: [bytes.decode("utf-8")] *)

Module utf8.

Definition byte_val (b : byte) : Z := Z.of_N (Byte.to_N b).

(** A continuation byte is in 0x80..0xBF. *)
Definition is_cont (b : Z) : bool := (128 <=? b) && (b <=? 191).

(** The strict decoder: shortest form only, no surrogates, nothing above
    U+10FFFF.  [None] stands for [UnicodeDecodeError]. *)
Fixpoint decode (bs : list byte) : option (list Z) :=
  match bs with
  | [] => Some []
  | b0 :: r0 =>
      let x0 := byte_val b0 in
      if x0 <? 128 then cons x0 <$> decode r0
      else if (194 <=? x0) && (x0 <=? 223) then
        match r0 with
        | b1 :: r1 =>
            let x1 := byte_val b1 in
            if is_cont x1
            then cons ((x0 - 192) * 64 + (x1 - 128)) <$> decode r1
            else None
        | _ => None
        end
      else if (224 <=? x0) && (x0 <=? 239) then
        match r0 with
        | b1 :: b2 :: r2 =>
            let x1 := byte_val b1 in
            let x2 := byte_val b2 in
            let lo := if x0 =? 224 then 160 else 128 in
            let hi := if x0 =? 237 then 159 else 191 in
            if (lo <=? x1) && (x1 <=? hi) && is_cont x2
            then cons ((x0 - 224) * 4096 + (x1 - 128) * 64 + (x2 - 128))
                   <$> decode r2
            else None
        | _ => None
        end
      else if (240 <=? x0) && (x0 <=? 244) then
        match r0 with
        | b1 :: b2 :: b3 :: r3 =>
            let x1 := byte_val b1 in
            let x2 := byte_val b2 in
            let x3 := byte_val b3 in
            let lo := if x0 =? 240 then 144 else 128 in
            let hi := if x0 =? 244 then 143 else 191 in
            if (lo <=? x1) && (x1 <=? hi) && is_cont x2 && is_cont x3
            then cons ((x0 - 240) * 262144 + (x1 - 128) * 4096
                       + (x2 - 128) * 64 + (x3 - 128))
                   <$> decode r3
            else None
        | _ => None
        end
      else None
  end.

(** The code points of a string literal of the program. *)
Definition of_string (s : string) : list Z :=
  Py.ord <$> list_ascii_of_string s.

(** The bytes of an ASCII text. *)
Definition bytes_of (s : string) : list byte := list_byte_of_string s.

(** [p in s] on decoded text: [p] occurs as a contiguous run. *)
Fixpoint startswith (p s : list Z) : bool :=
  match p, s with
  | [], _ => true
  | a :: p', b :: s' => (a =? b) && startswith p' s'
  | _ :: _, [] => false
  end.

Fixpoint contains (p s : list Z) : bool :=
  startswith p s ||
  match s with
  | [] => false
  | _ :: s' => contains p s'
  end.

End utf8.

(** ** The program: [scanner.py] *)

(** What the program does to the outside, in program order. *)
Inductive event :=
| EInput (prompt : string)          (* [input(prompt)]: the prompt is written *)
| EPrint (text : string)            (* [print(text)] *)
| EPortScan (target arguments : string)  (* [scanner.scan(target, arguments=...)] *)
| EPopen (command : string)         (* [subprocess.Popen(command, shell=True)] *)
| EPbarUpdate (n : Z)               (* [pbar.update(n)] *)
| ESleep                            (* [time.sleep(0.1)] *)
| ECommunicate.                     (* [process.communicate()] *)

Global Instance event_eq_dec : EqDecision event.
Proof. solve_decision. Defined.

(** What python-nmap reports for one protocol of a host: the ports in the
    order of [scanner[host][proto].keys()], each with its ['state']. *)
Record proto_report := {
  proto_name : string;
  proto_ports : list (Z * string)
}.

(** One entry of [scanner.all_hosts()], with [scanner[host].state()] and
    [scanner[host].all_protocols()]. *)
Record host_report := {
  host_name : string;
  host_state : string;
  host_protocols : list proto_report
}.

(** How lines 113 and 114 fail when they do. *)
Inductive scan_failure :=
| InitFailed          (* [nmap.PortScanner()] raises [PortScannerError]:
                         no usable nmap program; [scan] is never called *)
| ArgumentsRejected   (* [scan] asserts that the arguments hold neither
                         [-oX] nor [-oA]: [AssertionError] *)
| BadQuoting          (* [scan] splits the hosts and the arguments with
                         [shlex.split]: [ValueError] *)
| ScanFailed.         (* [scan] raises [PortScannerError] on what nmap
                         answers *)

Definition failure_exn (f : scan_failure) : exn :=
  match f with
  | InitFailed | ScanFailed => PortScannerError
  | ArgumentsRejected => AssertionError
  | BadQuoting => ValueError
  end.

(** The environment of one run. *)
Record world := {
  (** [datetime.now()] *)
  now : datetime.datetime;
  (** [os.path.exists] *)
  path_exists : string -> bool;
  (** what [nmap.PortScanner()] and then
      [scanner.scan(target, arguments=options)] find, [None] when one of
      the two calls raises *)
  port_scan : string -> string -> option (list host_report);
  (** which call raised what, in that case *)
  port_scan_failure : string -> string -> scan_failure;
  (** the lines that the process started with a command writes to its
      standard output *)
  popen_stdout : string -> list (list byte)
}.

(** Code that prints and reads the keyboard: from the lines still to be
    read to the events, the lines left and the outcome. *)
Definition IO (A : Type) : Type :=
  list string -> list event * list string * result A.

Definition ret {A} (a : A) : IO A := fun stdin => ([], stdin, Ok a).

Definition bind {A B} (m : IO A) (k : A -> IO B) : IO B :=
  fun stdin =>
    let '(out1, stdin1, r1) := m stdin in
    match r1 with
    | Ok a => let '(out2, stdin2, r2) := k a stdin1 in (out1 ++ out2, stdin2, r2)
    | Raise e => (out1, stdin1, Raise e)
    end.

Notation "x <~ m ; k" := (bind m (fun x => k))
  (at level 100, m at next level, right associativity, only parsing).
Notation "m ;; k" := (bind m (fun _ => k))
  (at level 100, right associativity, only parsing).

Definition emit (e : event) : IO unit := fun stdin => ([e], stdin, Ok tt).
Definition print (text : string) : IO unit := emit (EPrint text).
Definition raise {A} (e : exn) : IO A := fun stdin => ([], stdin, Raise e).

(** Several events at once. *)
Definition say (out : list event) : IO unit := fun stdin => (out, stdin, Ok tt).

(** The value of an option, or the exception [e]. *)
Definition or_raise {A} (e : exn) (o : option A) : IO A :=
  match o with
  | Some a => ret a
  | None => raise e
  end.

(** [input(prompt)]: the next line without its newline, [EOFError] when
    the input is exhausted. *)
Definition input (prompt : string) : IO string :=
  fun stdin =>
    match stdin with
    | [] => ([EInput prompt], [], Raise EOFError)
    | line :: rest => ([EInput prompt], rest, Ok line)
    end.

(** The events and the outcome of a run, without the lines left unread. *)
Definition run {A} (m : IO A) (stdin : list string) : list event * result A :=
  let '(out, _, r) := m stdin in (out, r).

Definition help_text : string :=
"
    Network Scanning Script
    -----------------------
    This script performs an Nmap scan on a given network CIDR range, validates input, 
    and saves the results in a user-specified format.

    Usage:
        python script.py
    
    Features:
    - CIDR validation
    - Nmap scanning with custom options
    - Progress tracking with tqdm
    - Results saved in XML, JSON, grepable, or normal format

    Options:
    - You will be prompted to enter a CIDR range (e.g., 192.168.1.0/24)
    - You can choose an output format: xml, json, grepable, or normal
    - The scan uses default options: '-sS -sV -O -A -p 1-1000'

    Example:
        Please enter the CIDR range: 192.168.1.0/24
        Enter output format (xml/json/grepable/normal): xml

    Dependencies:
    - Python modules: os, time, subprocess, ipaddress, datetime, nmap, tqdm
    - Ensure Nmap is installed on your system.

    To exit, use Ctrl+C.
    ".

Definition getHelp : IO unit := print help_text.

Definition invalid_cidr_message : string :=
  "Invalid CIDR format. Please use the correct format like 192.168.1.0/24.".

(** [validate_cidr] does not read the keyboard and cannot raise: every
    exception of [IPv4Network] on a string is a [ValueError] (lemma
    [IPv4Network_raises] below), which the [except] clause catches.  The
    result is what it prints and what it returns. *)
Definition validate_cidr (cidr : string) : list event * bool :=
  match ipaddress.IPv4Network cidr with
  | Ok _ => ([], true)
  | Raise _ => ([EPrint invalid_cidr_message], false)
  end.

Definition cidr_prompt : string :=
  "Please enter the CIDR range (e.g., 192.168.1.0/24): ".

(** The [while True] loop reads one line per turn, so it is a recursion on
    the lines still to be read. *)
Fixpoint get_user_input (stdin : list string)
  : list event * list string * result string :=
  match stdin with
  | [] => ([EInput cidr_prompt], [], Raise EOFError)
  | line :: rest =>
      let cidr_input := Py.strip line in
      let '(out, ok) := validate_cidr cidr_input in
      if ok then (EInput cidr_prompt :: out, rest, Ok cidr_input)
      else
        let '(out', stdin', r) := get_user_input rest in
        (EInput cidr_prompt :: out ++ out', stdin', r)
  end.

Definition generate_unique_filename
    (clock : datetime.datetime) (output_format target_cidr : string) : string :=
  let timestamp := datetime.strftime clock "%Y%m%d_%H%M%S" in
  let safe_target := Py.replace "." "_" (Py.replace "/" "_" target_cidr) in
  "nmap_scan_" +:+ safe_target +:+ "_" +:+ timestamp +:+ "." +:+ output_format.

Definition valid_formats : list string := ["xml"; "json"; "grepable"; "normal"].

Definition output_flags : gmap string string :=
  <["xml" := "-oX"]> (<["json" := "-oJ"]> (<["grepable" := "-oG"]>
    (<["normal" := "-oN"]> ∅))).

Definition total_ports : Z := 1000.

(** The lines printed for the hosts of the first scan. *)
Definition print_ports (ports : list (Z * string)) : list event :=
  (fun ps => EPrint ("Port: " +:+ Py.str ps.1 +:+ ", " +:+ "State: " +:+ ps.2))
    <$> ports.

Definition print_protocols (protos : list proto_report) : list event :=
  protos ≫= (fun p =>
    EPrint ("Protocol: " +:+ proto_name p) :: print_ports (proto_ports p)).

Definition print_hosts (hosts : list host_report) : list event :=
  hosts ≫= (fun h =>
    EPrint ("Host: " +:+ host_name h)
    :: EPrint ("State: " +:+ host_state h)
    :: print_protocols (host_protocols h)).

Definition ports_scanned : list Z := utf8.of_string "Ports scanned".

(** One turn of [for line in process.stdout]: from the progress count
    before the line to the count after it. *)
Definition progress_step (n : Z) (line : list byte) : IO Z :=
  match utf8.decode line with
  | None => raise UnicodeDecodeError
  | Some line =>
      n' <~ (if utf8.contains ports_scanned line
             then (emit (EPbarUpdate 10) ;; ret (n + 10))
             else ret n);
      emit ESleep ;;
      ret n'
  end.

(** The whole loop, from the count [n]; returns the final count. *)
Fixpoint progress_loop (n : Z) (lines : list (list byte)) : IO Z :=
  match lines with
  | [] => ret n
  | line :: rest =>
      n' <~ progress_step n line;
      progress_loop n' rest
  end.

(** Line 113, [scanner = nmap.PortScanner()]. *)
Definition PortScanner (w : world) (target options : string) : IO unit :=
  match port_scan w target options, port_scan_failure w target options with
  | None, InitFailed => raise PortScannerError
  | _, _ => ret tt
  end.

(** Line 114, [scanner.scan(target, arguments=options)]. *)
Definition scan (w : world) (target options : string) : IO (list host_report) :=
  emit (EPortScan target options) ;;
  match port_scan w target options with
  | Some hosts => ret hosts
  | None => raise (failure_exn (port_scan_failure w target options))
  end.

Definition scan_network (w : world) (target options output_format : string)
  : IO unit :=
  PortScanner w target options ;;
  hosts <~ scan w target options;
  say (print_hosts hosts) ;;
  output_format <~
    (if bool_decide (output_format ∈ valid_formats) then ret output_format
     else (print "Invalid output format specified. Using default 'xml'." ;;
           ret "xml"));
  let output_filename := generate_unique_filename (now w) output_format target in
  (if path_exists w output_filename
   then print ("Output file " +:+ output_filename +:+ " already exists, overwriting.")
   else ret tt) ;;
  output_flag <~ or_raise KeyError (output_flags !! output_format);
  let command :=
    "nmap " +:+ output_flag +:+ " " +:+ output_filename +:+ " "
    +:+ options +:+ " " +:+ target in
  emit (EPopen command) ;;
  progress_loop 0 (popen_stdout w command) ;;
  emit ECommunicate ;;
  print ("Scan complete. Results saved to " +:+ output_filename).

Definition default_options : string := "-sS -sV -O -A -p 1-1000".

Definition main (w : world) : IO unit :=
  answer <~ input "Need help? (yes/no): ";
  if String.eqb (Py.lower (Py.strip answer)) "yes" then getHelp
  else
    target_cidr <~ get_user_input;
    let options := default_options in
    line <~ input "Enter output format (xml/json/grepable/normal): ";
    let output_format := Py.lower (Py.strip line) in
    scan_network w target_cidr options output_format.

(** * Vocabulary of the statements *)

Definition format_warning : string :=
  "Invalid output format specified. Using default 'xml'.".

(** The value of [output_format] after the substitution step. *)
Definition effective_format (output_format : string) : string :=
  if bool_decide (output_format ∈ valid_formats) then output_format else "xml".

(** The events and the outcome of the progress loop. *)
Definition loop_events (n : Z) (lines : list (list byte)) : list event :=
  (progress_loop n lines []).1.1.

Definition loop_result (n : Z) (lines : list (list byte)) : result Z :=
  (progress_loop n lines []).2.

Definition overwrite_warning (filename : string) : string :=
  "Output file " +:+ filename +:+ " already exists, overwriting.".

Definition scan_complete (filename : string) : string :=
  "Scan complete. Results saved to " +:+ filename.

(** The command line for a flag and a file name. *)
Definition nmap_command (flag filename options target : string) : string :=
  "nmap " +:+ flag +:+ " " +:+ filename +:+ " " +:+ options +:+ " " +:+ target.

(** The events of [scan_network] once the first scan has returned. *)
Definition scan_events (w : world) (target options output_format flag : string)
    (hosts : list host_report) : list event :=
  let filename :=
    generate_unique_filename (now w) (effective_format output_format) target in
  let command := nmap_command flag filename options target in
  EPortScan target options :: print_hosts hosts
  ++ (if bool_decide (output_format ∈ valid_formats) then []
      else [EPrint format_warning])
  ++ (if path_exists w filename then [EPrint (overwrite_warning filename)] else [])
  ++ EPopen command :: loop_events 0 (popen_stdout w command)
  ++ match loop_result 0 (popen_stdout w command) with
     | Ok _ => [ECommunicate; EPrint (scan_complete filename)]
     | Raise _ => []
     end.

(** Every character of [s] satisfies [P]. *)
Fixpoint string_forall (P : ascii -> bool) (s : string) : bool :=
  match s with
  | EmptyString => true
  | String c s' => P c && string_forall P s'
  end.

(** One of the characters 0..9. *)
Definition is_ascii_digit (c : ascii) : bool :=
  (48 <=? Py.ord c) && (Py.ord c <=? 57).

Definition differs (sep c : ascii) : bool := negb (Ascii.eqb c sep).

(** [s] with [f] applied to each character. *)
Fixpoint translate (f : ascii -> ascii) (s : string) : string :=
  match s with
  | EmptyString => EmptyString
  | String c s' => String (f c) (translate f s')
  end.

(** What [generate_unique_filename] does to one character of the target. *)
Definition safe_char (c : ascii) : ascii :=
  if Ascii.eqb c "/" then "_"%char
  else if Ascii.eqb c "." then "_"%char
  else c.

(** [sep.join(fields)] for a one-character separator. *)
Fixpoint join (sep : ascii) (fields : list string) : string :=
  match fields with
  | [] => EmptyString
  | [f] => f
  | f :: rest => f +:+ String sep (join sep rest)
  end.

(** The text [a.b.c.d] of four integers in decimal. *)
Definition dotted_quad (a b c d : Z) : string :=
  Py.str a +:+ "." +:+ Py.str b +:+ "." +:+ Py.str c +:+ "." +:+ Py.str d.

(** The 32-bit value of the address [a.b.c.d]. *)
Definition ip_value (a b c d : Z) : Z := ((a * 256 + b) * 256 + c) * 256 + d.

Definition is_octet (n : Z) : Prop := 0 <= n <= 255.

(** A well-formed IPv4 literal: four decimal octets separated by dots. *)
Definition well_formed_ipv4 (s : string) : Prop :=
  exists a b c d,
    is_octet a /\ is_octet b /\ is_octet c /\ is_octet d /\ s = dotted_quad a b c d.

(** The text [a.b.c.d/p]. *)
Definition cidr_text (a b c d p : Z) : string :=
  dotted_quad a b c d +:+ "/" +:+ Py.str p.

(** An octet text accepted by [_parse_octet] is the decimal numeral of its
    value. *)
Definition octet_roundtrip (o : string) : bool :=
  match ipaddress._parse_octet o with
  | Ok n => String.eqb o (Py.str n) && (0 <=? n) && (n <=? 255)
  | Raise _ => true
  end.

Definition digit_string (ds : list Z) : string :=
  string_of_list_ascii (Py.digit_char <$> ds).

(** A line printed for a host of the first scan. *)
Definition host_line (s : string) : bool :=
  Py.startswith "Host: " s || Py.startswith "State: " s
  || Py.startswith "Protocol: " s || Py.startswith "Port: " s.

(** The output flag that goes with a recognized format. *)
Definition output_flag_for (output_format : string) : string :=
  if String.eqb output_format "xml" then "-oX"
  else if String.eqb output_format "json" then "-oJ"
  else if String.eqb output_format "grepable" then "-oG"
  else "-oN".

(** A line of the process's output that moves the progress bar. *)
Definition line_matches (line : list byte) : bool :=
  match utf8.decode line with
  | Some text => utf8.contains ports_scanned text
  | None => false
  end.

(** The number of lines that move the progress bar. *)
Fixpoint matching_lines (lines : list (list byte)) : Z :=
  match lines with
  | [] => 0
  | line :: rest => (if line_matches line then 1 else 0) + matching_lines rest
  end.

(** ** A concrete run, for the statements that need one *)

Definition sample_clock : datetime.datetime :=
  {| datetime.year := 2024; datetime.month := 3; datetime.day := 7;
     datetime.hour := 9; datetime.minute := 5; datetime.second := 0 |}.

Definition sample_hosts : list host_report :=
  [ {| host_name := "192.168.1.1"; host_state := "up";
       host_protocols :=
         [ {| proto_name := "tcp";
              proto_ports := [(22, "open"); (80, "closed")] |} ] |} ].

(** The file of an earlier xml scan exists; nmap prints three lines, one of
    them with the words the progress bar looks for. *)
Definition sample_world : world :=
  {| now := sample_clock;
     path_exists := String.eqb "nmap_scan_192_168_1_0_30_20240307_090500.xml";
     port_scan := fun _ _ => Some sample_hosts;
     port_scan_failure := fun _ _ => ScanFailed;
     popen_stdout := fun _ =>
       [ utf8.bytes_of "Starting Nmap 7.94";
         utf8.bytes_of "Ports scanned: 10";
         utf8.bytes_of "Nmap done: 4 IP addresses (1 host up) scanned" ] |}.

(** What nmap prints on an ordinary run: nothing about scanned ports. *)
Definition quiet_output : list (list byte) :=
  [ utf8.bytes_of "Starting Nmap 7.94";
    utf8.bytes_of "Nmap scan report for 192.168.1.1";
    utf8.bytes_of "Nmap done: 4 IP addresses (1 host up) scanned" ].

(** [s] is the numeral of [v] written with exactly [width] decimal digits. *)
Definition numeral (width : nat) (s : string) (v : Z) : Prop :=
  String.length s = width /\ string_forall is_ascii_digit s = true /\ Py.int_value s = v.

Definition numeral_b (width : nat) (s : string) (v : Z) : bool :=
  (String.length s =? width)%nat && string_forall is_ascii_digit s && (Py.int_value s =? v).

(** One rejected turn of the CIDR prompt: the prompt, then the message of
    [validate_cidr]. *)
Definition rejected_turn : list event :=
  [EInput cidr_prompt; EPrint invalid_cidr_message].

(** A line that [validate_cidr] rejects once stripped. *)
Definition rejected (line : string) : Prop :=
  (validate_cidr (Py.strip line)).2 = false.

Definition help_prompt : string := "Need help? (yes/no): ".

Definition format_prompt : string :=
  "Enter output format (xml/json/grepable/normal): ".

(** The sample run with an nmap that prints [quiet_output]. *)
Definition quiet_world : world :=
  {| now := sample_clock;
     path_exists := fun _ => false;
     port_scan := fun _ _ => Some sample_hosts;
     port_scan_failure := fun _ _ => ScanFailed;
     popen_stdout := fun _ => quiet_output |}.

(** ** The files *)







(** A run in which creating the scanner or the first scan fails as [f]. *)
Definition failing_world (f : scan_failure) : world :=
  {| now := sample_clock;
     path_exists := fun _ => false;
     port_scan := fun _ _ => None;
     port_scan_failure := fun _ _ => f;
     popen_stdout := fun _ => [] |}.

(** ** Vocabulary of the further properties *)

(** A character of a CIDR text: a digit, a dot or a slash. *)
Definition cidr_char (c : ascii) : bool :=
  is_ascii_digit c || Ascii.eqb c "." || Ascii.eqb c "/".

Definition digit_or_dot (c : ascii) : bool :=
  is_ascii_digit c || Ascii.eqb c ".".

(** A character the shell takes literally: a letter, a digit, a space or
    one of [- _ . /]. *)
Definition shell_safe (c : ascii) : bool :=
  let n := Py.ord c in
  ((65 <=? n) && (n <=? 90)) || ((97 <=? n) && (n <=? 122))
  || ((48 <=? n) && (n <=? 57))
  || (n =? 32) || (n =? 45) || (n =? 95) || (n =? 46) || (n =? 47).

(** The dotted quad of a 32-bit value. *)
Definition quad_text (v : Z) : string :=
  dotted_quad (v / 2 ^ 24) ((v / 2 ^ 16) mod 256) ((v / 2 ^ 8) mod 256) (v mod 256).

(** The netmask and the host mask of a prefix length. *)
Definition netmask_value (p : Z) : Z := 2 ^ 32 - 2 ^ (32 - p).
Definition hostmask_value (p : Z) : Z := 2 ^ (32 - p) - 1.

(** The mask texts that [IPv4Network] takes after the ["/"]: a string of
    decimal digits, or a dotted quad. *)
Definition mask_text (mask : string) : Prop :=
  (string_forall is_ascii_digit mask = true /\ mask <> "")
  \/ well_formed_ipv4 mask.

(** The texts that [IPv4Network] can accept: an address, alone or followed
    by ["/"] and a mask text. *)
Definition cidr_shape (s : string) : Prop :=
  exists addr,
    well_formed_ipv4 addr
    /\ (s = addr \/ exists mask, mask_text mask /\ s = addr +:+ "/" +:+ mask).

(** The events of one turn of the progress loop on a line that decodes. *)
Definition line_events (line : list byte) : list event :=
  if line_matches line then [EPbarUpdate 10; ESleep] else [ESleep].

Definition decodable (line : list byte) : Prop := utf8.decode line <> None.


(** A character of a printed number: a digit or the minus sign. *)
Definition digit_or_minus (c : ascii) : bool :=
  is_ascii_digit c || Ascii.eqb c "-".

(** One of the two separators that [generate_unique_filename] replaces. *)
Definition is_sep (c : ascii) : bool := Ascii.eqb c "." || Ascii.eqb c "/".

(** The separators of a text, in order. *)
Fixpoint seps (s : string) : list ascii :=
  match s with
  | EmptyString => []
  | String c s' => if is_sep c then c :: seps s' else seps s'
  end.

(** The number of underscores of a text. *)
Fixpoint underscores (s : string) : nat :=
  match s with
  | EmptyString => O
  | String c s' => if Ascii.eqb c "_" then S (underscores s') else underscores s'
  end.

(** ** The model on concrete inputs *)

Example IPv4Network_24 :
  ipaddress.IPv4Network "192.168.1.0/24"
  = Ok {| ipaddress.network_address := 3232235776;
          ipaddress.netmask := 4294967040; ipaddress.prefixlen := 24 |}.
Proof. vm_compute. reflexivity. Qed.

Example IPv4Network_host_bits :
  ipaddress.IPv4Network "192.168.1.1/24" = Raise ValueError.
Proof. vm_compute. reflexivity. Qed.

Example IPv4Network_netmask :
  ipaddress.IPv4Network "10.0.0.0/255.0.0.0"
  = Ok {| ipaddress.network_address := 167772160;
          ipaddress.netmask := 4278190080; ipaddress.prefixlen := 8 |}.
Proof. vm_compute. reflexivity. Qed.

Example IPv4Network_hostmask :
  ipaddress.IPv4Network "10.0.0.0/0.255.255.255"
  = Ok {| ipaddress.network_address := 167772160;
          ipaddress.netmask := 4278190080; ipaddress.prefixlen := 8 |}.
Proof. vm_compute. reflexivity. Qed.

Example IPv4Network_no_slash :
  ipaddress.IPv4Network "192.168.1.7"
  = Ok {| ipaddress.network_address := 3232235783;
          ipaddress.netmask := 4294967295; ipaddress.prefixlen := 32 |}.
Proof. vm_compute. reflexivity. Qed.

Example IPv4Network_bad :
  ipaddress.IPv4Network "192.168.1.0/33" = Raise NetmaskValueError
  /\ ipaddress.IPv4Network "192.168.1/24" = Raise AddressValueError
  /\ ipaddress.IPv4Network "192.168.01.0/24" = Raise AddressValueError
  /\ ipaddress.IPv4Network "192.168.1.0/24/1" = Raise AddressValueError
  /\ ipaddress.IPv4Network "" = Raise AddressValueError
  /\ ipaddress.IPv4Network "1.2.3.256" = Raise AddressValueError
  /\ ipaddress.IPv4Network "0.0.0.0/255.0.255.0" = Raise NetmaskValueError.
Proof. vm_compute. repeat split; reflexivity. Qed.

Example decode_ascii :
  utf8.decode (utf8.bytes_of "Ports scanned: 10") = Some (utf8.of_string "Ports scanned: 10").
Proof. vm_compute. reflexivity. Qed.

Example decode_two_bytes : utf8.decode [xc3; xa9] = Some [233].
Proof. vm_compute. reflexivity. Qed.

Example decode_euro : utf8.decode [xe2; x82; xac] = Some [8364].
Proof. vm_compute. reflexivity. Qed.

Example decode_invalid :
  utf8.decode [xff] = None /\ utf8.decode [xc0; x80] = None
  /\ utf8.decode [xed; xa0; x80] = None /\ utf8.decode [xe2; x82] = None.
Proof. vm_compute. repeat split; reflexivity. Qed.

Example strip_lower : Py.lower (Py.strip "  YeS ") = "yes".
Proof. vm_compute. reflexivity. Qed.

Example split_fields : Py.split "." "a..b." = ["a"; ""; "b"; ""].
Proof. vm_compute. reflexivity. Qed.

Example replace_substring :
  Py.replace "ab" "X" "aababab" = "aXXX" /\ Py.replace "aa" "b" "aaaaa" = "bba"
  /\ Py.replace "" "-" "abc" = "-a-b-c-".
Proof. vm_compute. repeat split; reflexivity. Qed.

Example str_of_int :
  Py.str 0 = "0" /\ Py.str 65535 = "65535" /\ Py.str (-12) = "-12"
  /\ Py.zfill 4 7 = "0007".
Proof. vm_compute. repeat split; reflexivity. Qed.

Example sample_filename :
  generate_unique_filename sample_clock "xml" "192.168.1.0/30"
  = "nmap_scan_192_168_1_0_30_20240307_090500.xml".
Proof. vm_compute. reflexivity. Qed.

(** A whole session: two rejected ranges, then a range and a format that
    is not recognized. *)
Example sample_session :
  run (main sample_world)
    ["no"; "bad"; "192.168.1.1/24"; " 192.168.1.0/30  "; "YAML"]
  = ([EInput "Need help? (yes/no): ";
      EInput cidr_prompt; EPrint invalid_cidr_message;
      EInput cidr_prompt; EPrint invalid_cidr_message;
      EInput cidr_prompt;
      EInput "Enter output format (xml/json/grepable/normal): ";
      EPortScan "192.168.1.0/30" "-sS -sV -O -A -p 1-1000";
      EPrint "Host: 192.168.1.1"; EPrint "State: up";
      EPrint "Protocol: tcp"; EPrint "Port: 22, State: open";
      EPrint "Port: 80, State: closed";
      EPrint "Invalid output format specified. Using default 'xml'.";
      EPrint "Output file nmap_scan_192_168_1_0_30_20240307_090500.xml already exists, overwriting.";
      EPopen "nmap -oX nmap_scan_192_168_1_0_30_20240307_090500.xml -sS -sV -O -A -p 1-1000 192.168.1.0/30";
      ESleep; EPbarUpdate 10; ESleep; ESleep; ECommunicate;
      EPrint "Scan complete. Results saved to nmap_scan_192_168_1_0_30_20240307_090500.xml"],
     Ok tt).
Proof. vm_compute. reflexivity. Qed.

(** Input that ends before a valid range was typed. *)
Example session_eof :
  run (main sample_world) ["no"; "bad"]
  = ([EInput "Need help? (yes/no): ";
      EInput cidr_prompt; EPrint invalid_cidr_message;
      EInput cidr_prompt],
     Raise EOFError).
Proof. vm_compute. reflexivity. Qed.

(** A line of output that is not UTF-8 stops the loop. *)
Example loop_decode_error :
  loop_result 0 [utf8.bytes_of "Ports scanned"; [xff]; utf8.bytes_of "Ports scanned"]
  = Raise UnicodeDecodeError.
Proof. vm_compute. reflexivity. Qed.

(** The ways the first two lines of [scan_network] fail: no nmap program,
    an output flag among the options, a quote in the target. *)
Example first_scan_failures :
  run (scan_network (failing_world InitFailed) "10.0.0.1" default_options "xml") []
  = ([], Raise PortScannerError)
  /\ run (scan_network (failing_world ArgumentsRejected) "10.0.0.1" "-oX out.xml" "xml") []
     = ([EPortScan "10.0.0.1" "-oX out.xml"], Raise AssertionError)
  /\ run (scan_network (failing_world BadQuoting) "10.0.0.1'" default_options "xml") []
     = ([EPortScan "10.0.0.1'" "-sS -sV -O -A -p 1-1000"], Raise ValueError)
  /\ run (scan_network (failing_world ScanFailed) "10.0.0.1" default_options "xml") []
     = ([EPortScan "10.0.0.1" "-sS -sV -O -A -p 1-1000"], Raise PortScannerError).
Proof. vm_compute. repeat split; reflexivity. Qed.

(** * Properties *)

(** ** Strings *)

#[local] Arguments String.append !s1 s2 : simpl nomatch.

Lemma append_assoc (a b c : string) : (a +:+ b) +:+ c = a +:+ (b +:+ c).
Proof. induction a as [|x a IH]; simpl; [reflexivity | now rewrite IH]. Qed.

Lemma append_nil_r (a : string) : a +:+ "" = a.
Proof. induction a as [|x a IH]; simpl; [reflexivity | now rewrite IH]. Qed.

Lemma length_append (a b : string) :
  String.length (a +:+ b) = (String.length a + String.length b)%nat.
Proof. induction a as [|x a IH]; simpl; [reflexivity | now rewrite IH]. Qed.

Lemma string_forall_append P (a b : string) :
  string_forall P (a +:+ b) = string_forall P a && string_forall P b.
Proof.
  induction a as [|x a IH]; simpl; [reflexivity|].
  rewrite IH. now rewrite andb_assoc.
Qed.

Lemma string_forall_impl (P Q : ascii -> bool) (s : string) :
  (forall c, P c = true -> Q c = true) ->
  string_forall P s = true -> string_forall Q s = true.
Proof.
  intros HPQ. induction s as [|x s IH]; simpl; [reflexivity|].
  rewrite !andb_true_iff. intros [Hx Hs]. split; auto.
Qed.

(** *** [split] and [join] *)

Lemma split_nonempty sep s : Py.split sep s <> [].
Proof.
  destruct s as [|c s]; simpl; [discriminate|].
  destruct (Ascii.eqb c sep); [discriminate|].
  destruct (Py.split sep s); discriminate.
Qed.

Lemma split_no_sep sep s :
  string_forall (differs sep) s = true -> Py.split sep s = [s].
Proof.
  induction s as [|c s IH]; simpl; [reflexivity|].
  unfold differs at 1. rewrite andb_true_iff, negb_true_iff.
  intros [Hc Hs]. rewrite Hc, (IH Hs). reflexivity.
Qed.

Lemma split_append_sep sep (a b : string) :
  Py.split sep (a +:+ String sep b) = Py.split sep a ++ Py.split sep b.
Proof.
  induction a as [|c a IH]; simpl.
  - now rewrite Ascii.eqb_refl.
  - destruct (Ascii.eqb c sep); [now rewrite IH|].
    rewrite IH. pose proof (split_nonempty sep a) as Hne.
    destruct (Py.split sep a); [contradiction | reflexivity].
Qed.

Lemma split_append_sep_str sep (a b : string) :
  Py.split sep (a +:+ String sep "" +:+ b) = Py.split sep a ++ Py.split sep b.
Proof. exact (split_append_sep sep a b). Qed.

Lemma join_split sep s : join sep (Py.split sep s) = s.
Proof.
  induction s as [|c s IH]; simpl; [reflexivity|].
  destruct (Ascii.eqb_spec c sep) as [->|Hne].
  - pose proof (split_nonempty sep s) as Hn.
    simpl. destruct (Py.split sep s) as [|f fs]; [contradiction|].
    now rewrite IH.
  - pose proof (split_nonempty sep s) as Hn.
    destruct (Py.split sep s) as [|f fs]; [contradiction|].
    destruct fs as [|g fs]; simpl in *; now rewrite <- IH.
Qed.

Lemma split_fields_no_sep sep s :
  Forall (fun f => string_forall (differs sep) f = true) (Py.split sep s).
Proof.
  induction s as [|c s IH]; simpl; [repeat constructor|].
  destruct (Ascii.eqb c sep) eqn:Hc; [constructor; [reflexivity | exact IH]|].
  destruct (Py.split sep s) as [|f fs]; [repeat constructor; simpl|].
  - unfold differs. now rewrite Hc.
  - inversion IH as [|? ? Hf Hfs]; subst. constructor; [|exact Hfs].
    simpl. unfold differs at 1. now rewrite Hc.
Qed.

Lemma contains_char_false c s :
  string_forall (differs c) s = true -> Py.contains (String c "") s = false.
Proof.
  induction s as [|x s IH]; simpl; [reflexivity|].
  unfold differs at 1. rewrite andb_true_iff, negb_true_iff.
  intros [Hx Hs]. rewrite (IH Hs), Ascii.eqb_sym, Hx. reflexivity.
Qed.

(** *** [replace] of one character by another is a character map *)

Lemma replace_char (a b : ascii) (s : string) :
  Py.replace (String a "") (String b "") s
  = translate (fun c => if Ascii.eqb c a then b else c) s.
Proof.
  unfold Py.replace. induction s as [|c s IH]; simpl; [reflexivity|].
  rewrite Ascii.eqb_sym. destruct (Ascii.eqb c a); simpl; now rewrite IH.
Qed.

Lemma translate_translate f g s :
  translate g (translate f s) = translate (fun c => g (f c)) s.
Proof. induction s as [|c s IH]; simpl; [reflexivity | now rewrite IH]. Qed.

Lemma translate_ext f g s :
  (forall c, f c = g c) -> translate f s = translate g s.
Proof.
  intros H. induction s as [|c s IH]; simpl; [reflexivity|]. now rewrite H, IH.
Qed.

Lemma translate_length f s : String.length (translate f s) = String.length s.
Proof. induction s as [|c s IH]; simpl; [reflexivity | now rewrite IH]. Qed.

Lemma safe_target_translate (target : string) :
  Py.replace "." "_" (Py.replace "/" "_" target) = translate safe_char target.
Proof.
  rewrite !replace_char, translate_translate. apply translate_ext.
  intros c. unfold safe_char.
  destruct (Ascii.eqb c "/"); reflexivity.
Qed.

Lemma safe_char_safe c : safe_char c <> "/"%char /\ safe_char c <> "."%char.
Proof.
  unfold safe_char.
  destruct (Ascii.eqb_spec c "/"); [split; discriminate|].
  destruct (Ascii.eqb_spec c "."); [split; discriminate|].
  split; assumption.
Qed.

(** ** Decimal numerals: [str] and [int] *)

Lemma ord_range c : 0 <= Py.ord c < 256.
Proof.
  unfold Py.ord. pose proof (N_ascii_bounded c). lia.
Qed.

Lemma ord_digit_char d : 0 <= d <= 9 -> Py.ord (Py.digit_char d) = 48 + d.
Proof.
  intros Hd. unfold Py.ord, Py.digit_char.
  rewrite N_ascii_embedding by lia. lia.
Qed.

Lemma digit_char_ord c : Py.digit_char (Py.ord c - 48) = c.
Proof.
  unfold Py.digit_char, Py.ord.
  replace (48 + (Z.of_N (N_of_ascii c) - 48)) with (Z.of_N (N_of_ascii c)) by lia.
  rewrite N2Z.id. apply ascii_N_embedding.
Qed.

Lemma is_ascii_digit_digit_char d : 0 <= d <= 9 -> is_ascii_digit (Py.digit_char d) = true.
Proof.
  intros Hd. unfold is_ascii_digit. rewrite ord_digit_char by assumption.
  apply andb_true_iff. split; apply Z.leb_le; lia.
Qed.

Lemma digits_forall fuel : forall n acc,
  0 <= n -> string_forall is_ascii_digit acc = true ->
  string_forall is_ascii_digit (Py.digits fuel n acc) = true.
Proof.
  induction fuel as [|fuel IH]; intros n acc Hn Hacc; simpl; [assumption|].
  assert (Hd : string_forall is_ascii_digit (String (Py.digit_char (n mod 10)) acc) = true).
  { simpl. rewrite Hacc, is_ascii_digit_digit_char; [reflexivity|].
    pose proof (Z.mod_pos_bound n 10). lia. }
  destruct (n <? 10); [exact Hd|].
  apply IH; [apply Z.div_pos; lia | exact Hd].
Qed.

Lemma digits_acc fuel : forall n acc,
  Py.digits fuel n acc = Py.digits fuel n "" +:+ acc.
Proof.
  induction fuel as [|fuel IH]; intros n acc; simpl; [reflexivity|].
  destruct (n <? 10); [reflexivity|].
  rewrite IH, (IH _ (String _ "")), append_assoc. reflexivity.
Qed.

Lemma digits_nonempty fuel n acc : Py.digits (S fuel) n acc <> "".
Proof.
  simpl. destruct (n <? 10); [discriminate|].
  rewrite digits_acc. destruct (Py.digits fuel (n / 10) ""); discriminate.
Qed.

Lemma int_from_append (s1 s2 : string) : forall a,
  Py.int_from a (s1 +:+ s2) = Py.int_from (Py.int_from a s1) s2.
Proof. induction s1 as [|c s1 IH]; intros a; simpl; [reflexivity | apply IH]. Qed.

Lemma int_digits fuel : forall n,
  0 <= n < 2 ^ Z.of_nat fuel -> Py.int_value (Py.digits fuel n "") = n.
Proof.
  unfold Py.int_value. induction fuel as [|fuel IH]; intros n Hn.
  - simpl in *. lia.
  - rewrite Nat2Z.inj_succ, Z.pow_succ_r in Hn by lia.
    cbn [Py.digits]. destruct (Z.ltb_spec n 10) as [Hlt|Hge].
    + simpl. rewrite ord_digit_char by (rewrite Z.mod_small; lia).
      rewrite Z.mod_small; lia.
    + rewrite digits_acc, int_from_append, IH.
      * simpl. rewrite ord_digit_char by (pose proof (Z.mod_pos_bound n 10); lia).
        pose proof (Z.div_mod n 10). lia.
      * split; [apply Z.div_pos; lia|].
        apply Z.div_lt_upper_bound; lia.
Qed.

Lemma str_nonneg n :
  0 <= n ->
  string_forall is_ascii_digit (Py.str n) = true
  /\ Py.str n <> "" /\ Py.int_value (Py.str n) = n.
Proof.
  intros Hn. unfold Py.str. destruct (Z.ltb_spec n 0) as [?|_]; [lia|].
  split; [apply digits_forall; [assumption | reflexivity]|].
  split; [apply digits_nonempty|].
  apply int_digits. split; [assumption|].
  rewrite Nat2Z.inj_succ, Z2Nat.id by apply Z.log2_nonneg.
  destruct (Z.eq_dec n 0) as [->|Hne]; [reflexivity|].
  apply Z.log2_spec. lia.
Qed.

Lemma ascii_digits_isascii s :
  string_forall is_ascii_digit s = true -> Py.isascii s = true /\ Py.all_digit s = true.
Proof.
  induction s as [|c s IH]; simpl; [split; reflexivity|].
  rewrite andb_true_iff. intros [Hc Hs]. destruct (IH Hs) as [-> ->].
  unfold is_ascii_digit in Hc. apply andb_true_iff in Hc as [H1 H2].
  apply Z.leb_le in H1, H2. unfold Py.isdigit_char.
  split; rewrite !andb_true_r.
  - apply Z.ltb_lt. lia.
  - rewrite !orb_true_iff. do 3 left.
    apply andb_true_iff. split; apply Z.leb_le; lia.
Qed.

Lemma isascii_isdigit_ascii_digits s :
  Py.isascii s && Py.isdigit s = true ->
  string_forall is_ascii_digit s = true /\ s <> "".
Proof.
  rewrite andb_true_iff. intros [Ha Hd].
  split; [|destruct s; [discriminate Hd | discriminate]].
  assert (Hall : Py.all_digit s = true) by (destruct s; [reflexivity | exact Hd]).
  clear Hd. induction s as [|c s IH]; simpl in *; [reflexivity|].
  apply andb_true_iff in Ha as [Hc Ha], Hall as [Hd Hall].
  rewrite (IH Ha Hall), andb_true_r.
  unfold is_ascii_digit. unfold Py.isdigit_char in Hd.
  apply Z.ltb_lt in Hc.
  rewrite !orb_true_iff, andb_true_iff, !Z.leb_le, !Z.eqb_eq in Hd.
  apply andb_true_iff. split; apply Z.leb_le; lia.
Qed.

Lemma str_isdigit n : 0 <= n -> Py.isascii (Py.str n) && Py.isdigit (Py.str n) = true.
Proof.
  intros Hn. destruct (str_nonneg n Hn) as (Hd & Hne & _).
  destruct (ascii_digits_isascii _ Hd) as [-> Hall].
  unfold Py.isdigit. destruct (Py.str n); [contradiction | exact Hall].
Qed.

Lemma str_negative n : n < 0 -> exists s, Py.str n = String "-" s /\
  string_forall is_ascii_digit s = true.
Proof.
  intros Hn. unfold Py.str. destruct (Z.ltb_spec n 0) as [_|?]; [|lia].
  eexists. split; [reflexivity|]. apply digits_forall; [lia | reflexivity].
Qed.

(** A property checked on every integer of a range holds on the range. *)
Lemma range_check (P : Z -> bool) (lo len : Z) :
  forallb P (seqZ lo len) = true ->
  forall z, lo <= z < lo + len -> P z = true.
Proof.
  intros Hall z Hz. rewrite forallb_forall in Hall. apply Hall.
  apply list_elem_of_In, elem_of_seqZ. exact Hz.
Qed.

(** ** The address and the prefix of a CIDR text *)

Lemma parse_octet_str n : is_octet n -> ipaddress._parse_octet (Py.str n) = Ok n.
Proof.
  intros Hn.
  pose proof (range_check
    (fun n => match ipaddress._parse_octet (Py.str n) with
              | Ok m => m =? n
              | Raise _ => false
              end) 0 256) as H.
  specialize (H ltac:(vm_compute; reflexivity) n ltac:(unfold is_octet in Hn; lia)).
  cbv beta in H. destruct (ipaddress._parse_octet (Py.str n)) as [m|]; [|discriminate].
  apply Z.eqb_eq in H. now subst.
Qed.

Lemma digits_differ sep s :
  is_ascii_digit sep = false ->
  string_forall is_ascii_digit s = true -> string_forall (differs sep) s = true.
Proof.
  intros Hsep. apply string_forall_impl. intros c Hc. unfold differs.
  apply negb_true_iff, Ascii.eqb_neq. intros ->. congruence.
Qed.

Lemma str_differs sep n :
  is_ascii_digit sep = false -> 0 <= n ->
  string_forall (differs sep) (Py.str n) = true.
Proof.
  intros Hsep Hn. apply digits_differ; [assumption|]. now apply str_nonneg.
Qed.

Lemma dotted_quad_no_slash a b c d :
  0 <= a -> 0 <= b -> 0 <= c -> 0 <= d ->
  string_forall (differs "/") (dotted_quad a b c d) = true.
Proof.
  intros Ha Hb Hc Hd. unfold dotted_quad.
  rewrite !string_forall_append, !(str_differs "/") by (reflexivity || assumption).
  reflexivity.
Qed.

Lemma split_dotted_quad a b c d :
  0 <= a -> 0 <= b -> 0 <= c -> 0 <= d ->
  Py.split "." (dotted_quad a b c d) = [Py.str a; Py.str b; Py.str c; Py.str d].
Proof.
  intros Ha Hb Hc Hd. unfold dotted_quad.
  rewrite !split_append_sep_str.
  rewrite !split_no_sep by (apply str_differs; [reflexivity | assumption]).
  reflexivity.
Qed.

Lemma dotted_quad_nonempty a b c d : 0 <= a -> dotted_quad a b c d <> "".
Proof.
  intros Ha. unfold dotted_quad.
  destruct (str_nonneg a Ha) as (_ & Hne & _).
  destruct (Py.str a); [contradiction | discriminate].
Qed.

Lemma ip_int_from_dotted_quad a b c d :
  is_octet a -> is_octet b -> is_octet c -> is_octet d ->
  ipaddress._ip_int_from_string (dotted_quad a b c d) = Ok (ip_value a b c d).
Proof.
  intros Ha Hb Hc Hd. unfold ipaddress._ip_int_from_string.
  assert (Hne : dotted_quad a b c d <> "") by (apply dotted_quad_nonempty, Ha).
  apply String.eqb_neq in Hne. rewrite Hne.
  rewrite split_dotted_quad by (unfold is_octet in *; lia).
  cbn [length Nat.eqb negb ipaddress.from_octets].
  rewrite !parse_octet_str by assumption. reflexivity.
Qed.

Lemma IPv4Address_dotted_quad a b c d :
  is_octet a -> is_octet b -> is_octet c -> is_octet d ->
  ipaddress.IPv4Address (dotted_quad a b c d) = Ok (ip_value a b c d).
Proof.
  intros Ha Hb Hc Hd. unfold ipaddress.IPv4Address.
  rewrite contains_char_false
    by (apply dotted_quad_no_slash; unfold is_octet in *; lia).
  now apply ip_int_from_dotted_quad.
Qed.

Lemma ip_value_range a b c d :
  is_octet a -> is_octet b -> is_octet c -> is_octet d ->
  0 <= ip_value a b c d < 2 ^ 32.
Proof. unfold is_octet, ip_value. lia. Qed.

(** *** The netmask of a prefix length and the host bits *)

Lemma ip_int_from_prefix_ones p :
  0 <= p <= 32 ->
  ipaddress._ip_int_from_prefix p = Z.shiftl (Z.ones p) (32 - p).
Proof.
  intros Hp.
  pose proof (range_check
    (fun p => ipaddress._ip_int_from_prefix p =? Z.shiftl (Z.ones p) (32 - p))
    0 33) as H.
  specialize (H ltac:(vm_compute; reflexivity) p ltac:(lia)).
  now apply Z.eqb_eq in H.
Qed.

Lemma land_high_bits ip k :
  0 <= ip < 2 ^ 32 -> 0 <= k <= 32 ->
  Z.land ip (Z.shiftl (Z.ones (32 - k)) k) = Z.shiftl (Z.shiftr ip k) k.
Proof.
  intros Hip Hk. apply Z.bits_inj'. intros i Hi.
  rewrite Z.land_spec, !Z.shiftl_spec by assumption.
  destruct (Z.ltb_spec i k) as [Hlt|Hge].
  - rewrite (Z.testbit_neg_r (Z.ones (32 - k))), (Z.testbit_neg_r (Z.shiftr ip k)) by lia.
    apply andb_false_r.
  - rewrite Z.shiftr_spec by lia. replace (i - k + k) with i by lia.
    rewrite Z.testbit_ones by lia.
    destruct (Z.ltb_spec (i - k) (32 - k)) as [Hin|Hout].
    + replace (0 <=? i - k) with true by (symmetry; apply Z.leb_le; lia).
      apply andb_true_r.
    + rewrite andb_false_r, andb_false_r. symmetry.
      destruct (Z.eq_dec ip 0) as [->|Hnz]; [apply Z.testbit_0_l|].
      apply Z.bits_above_log2; [lia|].
      apply Z.log2_lt_pow2; [lia|].
      apply Z.lt_le_trans with (2 ^ 32); [lia|].
      apply Z.pow_le_mono_r; lia.
Qed.

Lemma host_bits_check ip p :
  0 <= ip < 2 ^ 32 -> 0 <= p <= 32 ->
  (Z.land ip (ipaddress._ip_int_from_prefix p) =? ip) = (ip mod 2 ^ (32 - p) =? 0).
Proof.
  intros Hip Hp. rewrite ip_int_from_prefix_ones by assumption.
  replace p with (32 - (32 - p)) at 1 by lia.
  rewrite land_high_bits by lia.
  rewrite Z.shiftl_mul_pow2, Z.shiftr_div_pow2 by lia.
  assert (Hpos : 0 < 2 ^ (32 - p)) by (apply Z.pow_pos_nonneg; lia).
  pose proof (Z.div_mod ip (2 ^ (32 - p)) ltac:(lia)) as Hdm.
  destruct (Z.eqb_spec (ip mod 2 ^ (32 - p)) 0) as [Hz|Hnz].
  - apply Z.eqb_eq. lia.
  - apply Z.eqb_neq. lia.
Qed.

Lemma prefix_from_str p :
  0 <= p <= 32 -> ipaddress._prefix_from_prefix_string (Py.str p) = Ok p.
Proof.
  intros Hp.
  pose proof (range_check
    (fun p => match ipaddress._prefix_from_prefix_string (Py.str p) with
              | Ok q => q =? p
              | Raise _ => false
              end) 0 33) as H.
  specialize (H ltac:(vm_compute; reflexivity) p ltac:(lia)).
  cbv beta in H.
  destruct (ipaddress._prefix_from_prefix_string (Py.str p)) as [q|]; [|discriminate].
  apply Z.eqb_eq in H. now subst.
Qed.

Lemma split_addr_prefix_slash addr mask :
  string_forall (differs "/") addr = true ->
  string_forall (differs "/") mask = true ->
  ipaddress._split_addr_prefix (addr +:+ "/" +:+ mask)
  = Ok (addr, ipaddress.MaskStr mask).
Proof.
  intros Ha Hm. unfold ipaddress._split_addr_prefix, ipaddress._split_optional_netmask.
  rewrite split_append_sep_str, !split_no_sep by assumption. reflexivity.
Qed.

(** The network that [IPv4Network] builds from [a.b.c.d/p], or the
    [ValueError] for host bits. *)
Lemma IPv4Network_cidr_text a b c d p :
  is_octet a -> is_octet b -> is_octet c -> is_octet d -> 0 <= p <= 32 ->
  ipaddress.IPv4Network (cidr_text a b c d p)
  = if ip_value a b c d mod 2 ^ (32 - p) =? 0
    then Ok {| ipaddress.network_address := ip_value a b c d;
               ipaddress.netmask := ipaddress._ip_int_from_prefix p;
               ipaddress.prefixlen := p |}
    else Raise ValueError.
Proof.
  intros Ha Hb Hc Hd Hp. unfold ipaddress.IPv4Network, cidr_text.
  rewrite split_addr_prefix_slash.
  2: apply dotted_quad_no_slash; unfold is_octet in *; lia.
  2: apply str_differs; [reflexivity | lia].
  cbn [rbind]. rewrite IPv4Address_dotted_quad by assumption.
  cbn [rbind]. unfold ipaddress._make_netmask.
  rewrite prefix_from_str by assumption. cbn [rbind].
  rewrite host_bits_check by (try apply ip_value_range; assumption).
  destruct (ip_value a b c d mod 2 ^ (32 - p) =? 0); reflexivity.
Qed.

(** *** What [_parse_octet] accepts *)

Lemma ascii_digit_char c :
  is_ascii_digit c = true -> exists d, 0 <= d <= 9 /\ c = Py.digit_char d.
Proof.
  intros Hc. exists (Py.ord c - 48). split; [|symmetry; apply digit_char_ord].
  unfold is_ascii_digit in Hc. apply andb_true_iff in Hc as [H1 H2].
  apply Z.leb_le in H1, H2. lia.
Qed.

Lemma octet_roundtrip_1 d1 :
  0 <= d1 <= 9 -> octet_roundtrip (String (Py.digit_char d1) "") = true.
Proof.
  intros H1.
  apply (range_check (fun d1 => octet_roundtrip (String (Py.digit_char d1) "")) 0 10);
    [vm_compute; reflexivity | lia].
Qed.

Lemma octet_roundtrip_2 d1 d2 :
  0 <= d1 <= 9 -> 0 <= d2 <= 9 ->
  octet_roundtrip (String (Py.digit_char d1) (String (Py.digit_char d2) "")) = true.
Proof.
  intros H1 H2.
  pose proof (range_check
    (fun d1 => forallb (fun d2 =>
       octet_roundtrip (String (Py.digit_char d1) (String (Py.digit_char d2) "")))
       (seqZ 0 10)) 0 10 ltac:(vm_compute; reflexivity) d1 ltac:(lia)) as H.
  cbv beta in H.
  apply (range_check _ 0 10 H d2). lia.
Qed.

Lemma octet_roundtrip_3 d1 d2 d3 :
  0 <= d1 <= 9 -> 0 <= d2 <= 9 -> 0 <= d3 <= 9 ->
  octet_roundtrip
    (String (Py.digit_char d1) (String (Py.digit_char d2)
       (String (Py.digit_char d3) ""))) = true.
Proof.
  intros H1 H2 H3.
  pose proof (range_check
    (fun d1 => forallb (fun d2 => forallb (fun d3 =>
       octet_roundtrip
         (String (Py.digit_char d1) (String (Py.digit_char d2)
            (String (Py.digit_char d3) ""))))
       (seqZ 0 10)) (seqZ 0 10)) 0 10 ltac:(vm_compute; reflexivity) d1 ltac:(lia)) as H.
  cbv beta in H.
  pose proof (range_check _ 0 10 H d2 ltac:(lia)) as H'. cbv beta in H'.
  apply (range_check _ 0 10 H' d3). lia.
Qed.

Lemma parse_octet_inv o n :
  ipaddress._parse_octet o = Ok n -> is_octet n /\ o = Py.str n.
Proof.
  intros Hp.
  assert (Hr : octet_roundtrip o = true).
  { unfold ipaddress._parse_octet in Hp.
    destruct (String.eqb o ""); [discriminate|].
    destruct (Py.isascii o && Py.isdigit o) eqn:Hd; [|discriminate].
    destruct (3 <? String.length o)%nat eqn:Hlen; [discriminate|].
    apply Nat.ltb_ge in Hlen. clear Hp.
    destruct (isascii_isdigit_ascii_digits _ Hd) as [Hall Hne].
    destruct o as [|c1 [|c2 [|c3 [|c4 o]]]]; simpl in Hall, Hlen;
      [contradiction| | | |lia];
      repeat match goal with
      | H : _ && _ = true |- _ => apply andb_true_iff in H as [? ?]
      | H : is_ascii_digit ?c = true |- _ =>
          apply ascii_digit_char in H as (? & ? & ->)
      end.
    - now apply octet_roundtrip_1.
    - now apply octet_roundtrip_2.
    - now apply octet_roundtrip_3. }
  unfold octet_roundtrip in Hr. rewrite Hp in Hr.
  apply andb_true_iff in Hr as [Hr H255]. apply andb_true_iff in Hr as [Heq H0].
  apply String.eqb_eq in Heq. apply Z.leb_le in H0, H255.
  split; [split|]; assumption.
Qed.

Lemma from_octets_inv o1 o2 o3 o4 acc ip :
  ipaddress.from_octets acc [o1; o2; o3; o4] = Ok ip ->
  exists a b c d,
    is_octet a /\ is_octet b /\ is_octet c /\ is_octet d /\
    o1 = Py.str a /\ o2 = Py.str b /\ o3 = Py.str c /\ o4 = Py.str d /\
    ip = (((acc * 256 + a) * 256 + b) * 256 + c) * 256 + d.
Proof.
  cbn [ipaddress.from_octets]. intros H.
  destruct (ipaddress._parse_octet o1) as [a|] eqn:H1; [|discriminate].
  destruct (ipaddress._parse_octet o2) as [b|] eqn:H2; [|discriminate].
  destruct (ipaddress._parse_octet o3) as [c|] eqn:H3; [|discriminate].
  destruct (ipaddress._parse_octet o4) as [d|] eqn:H4; [|discriminate].
  cbn [rbind] in H. injection H as <-.
  apply parse_octet_inv in H1 as [? ?], H2 as [? ?], H3 as [? ?], H4 as [? ?].
  exists a, b, c, d. repeat (split; [assumption|]). reflexivity.
Qed.

Lemma ip_int_from_string_inv addr ip :
  ipaddress._ip_int_from_string addr = Ok ip ->
  exists a b c d,
    is_octet a /\ is_octet b /\ is_octet c /\ is_octet d /\
    addr = dotted_quad a b c d /\ ip = ip_value a b c d.
Proof.
  unfold ipaddress._ip_int_from_string. intros H.
  destruct (String.eqb addr ""); [discriminate|].
  pose proof (join_split "." addr) as Hj.
  destruct (Py.split "." addr) as [|o1 [|o2 [|o3 [|o4 [|o5 os]]]]];
    try discriminate H.
  cbn [length Nat.eqb negb] in H.
  destruct (ipaddress.from_octets 0 [o1; o2; o3; o4]) as [n|e] eqn:Ho;
    [|destruct (is_ValueError e); discriminate].
  injection H as <-.
  apply from_octets_inv in Ho as (a & b & c & d & Ha & Hb & Hc & Hd & -> & -> & -> & -> & ->).
  exists a, b, c, d. repeat (split; [assumption|]).
  split; [symmetry; exact Hj | unfold ip_value; lia].
Qed.

(** Whatever [IPv4Network] accepts starts with a well-formed address,
    alone or followed by ["/"] and a mask. *)
Lemma IPv4Network_address s net :
  ipaddress.IPv4Network s = Ok net ->
  exists addr,
    well_formed_ipv4 addr /\ (s = addr \/ exists mask, s = addr +:+ "/" +:+ mask).
Proof.
  unfold ipaddress.IPv4Network, ipaddress._split_addr_prefix,
    ipaddress._split_optional_netmask. intros H.
  pose proof (join_split "/" s) as Hj.
  pose proof (split_fields_no_sep "/" s) as Hf.
  destruct (Py.split "/" s) as [|addr [|mask [|x xs]]]; try discriminate H;
    cbn [length Nat.ltb Nat.leb rbind] in H;
    (destruct (ipaddress.IPv4Address addr) as [ip|] eqn:Ha; [|discriminate H]);
    unfold ipaddress.IPv4Address in Ha;
    (destruct (Py.contains "/" addr); [discriminate Ha|]);
    apply ip_int_from_string_inv in Ha as (a & b & c & d & ? & ? & ? & ? & -> & _);
    exists (dotted_quad a b c d);
    (split; [exists a, b, c, d; repeat (split; [assumption|]); reflexivity|]).
  - left. symmetry. exact Hj.
  - right. exists mask. symmetry. exact Hj.
Qed.

(** *** Every exception of [IPv4Network] is a [ValueError] *)

Lemma parse_octet_raises o e : ipaddress._parse_octet o = Raise e -> e = ValueError.
Proof.
  unfold ipaddress._parse_octet, Py.int. intros H.
  repeat match type of H with
  | (if ?b then _ else _) = _ => destruct b
  | rbind (if ?b then _ else _) _ = _ => destruct b; cbn [rbind] in H
  end; congruence.
Qed.

Lemma from_octets_raises octets : forall acc e,
  ipaddress.from_octets acc octets = Raise e -> e = ValueError.
Proof.
  induction octets as [|o rest IH]; intros acc e H; simpl in H; [discriminate|].
  destruct (ipaddress._parse_octet o) as [n|e'] eqn:Ho; simpl in H.
  - eapply IH, H.
  - injection H as <-. eapply parse_octet_raises, Ho.
Qed.

Lemma ip_int_from_string_raises s e :
  ipaddress._ip_int_from_string s = Raise e -> e = AddressValueError.
Proof.
  unfold ipaddress._ip_int_from_string. intros H.
  destruct (String.eqb s ""); [congruence|].
  destruct (negb _); [congruence|].
  destruct (ipaddress.from_octets 0 (Py.split "." s)) as [n|e'] eqn:Ho;
    [discriminate|].
  apply from_octets_raises in Ho as ->. simpl in H. congruence.
Qed.

Lemma IPv4Address_raises s e :
  ipaddress.IPv4Address s = Raise e -> e = AddressValueError.
Proof.
  unfold ipaddress.IPv4Address.
  destruct (Py.contains "/" s); [congruence | apply ip_int_from_string_raises].
Qed.

Lemma make_netmask_raises arg e :
  ipaddress._make_netmask arg = Raise e -> e = NetmaskValueError.
Proof.
  unfold ipaddress._make_netmask, ipaddress._prefix_from_ip_string. intros H.
  destruct arg as [n|s].
  - destruct (negb _); simpl in H; congruence.
  - destruct (ipaddress._prefix_from_prefix_string s); [discriminate H|].
    destruct (ipaddress._ip_int_from_string s) as [ip|]; [|simpl in H; congruence].
    destruct (ipaddress._prefix_from_ip_int ip); [discriminate H|].
    destruct (ipaddress._prefix_from_ip_int _); simpl in H; congruence.
Qed.

Lemma IPv4Network_raises s e :
  ipaddress.IPv4Network s = Raise e -> is_ValueError e = true.
Proof.
  unfold ipaddress.IPv4Network, ipaddress._split_addr_prefix,
    ipaddress._split_optional_netmask. intros H.
  destruct (2 <? length (Py.split "/" s))%nat;
    [simpl in H; injection H as <-; reflexivity|].
  assert (Hgo : forall addr mask,
    (network_address <-? ipaddress.IPv4Address addr;
     np <-? ipaddress._make_netmask mask;
     let '(netmask, prefixlen) := np in
     if negb (Z.land network_address netmask =? network_address)
     then Raise ValueError
     else Ok {| ipaddress.network_address := network_address;
                ipaddress.netmask := netmask;
                ipaddress.prefixlen := prefixlen |}) = Raise e ->
    is_ValueError e = true).
  { intros addr mask Hn.
    destruct (ipaddress.IPv4Address addr) as [ip|e1] eqn:Ha; simpl in Hn.
    - destruct (ipaddress._make_netmask mask) as [[nm pl]|e2] eqn:Hm; simpl in Hn.
      + destruct (negb _); [injection Hn as <-; reflexivity | discriminate].
      + injection Hn as <-. now apply make_netmask_raises in Hm as ->.
    - injection Hn as <-. now apply IPv4Address_raises in Ha as ->. }
  destruct (Py.split "/" s) as [|addr [|mask [|x xs]]]; cbn [rbind] in H.
  - injection H as <-. reflexivity.
  - eapply Hgo, H.
  - eapply Hgo, H.
  - eapply Hgo, H.
Qed.

(** *** A prefix length outside 0..32 *)

Lemma str_no_sep sep p :
  is_ascii_digit sep = false -> sep <> "-"%char ->
  string_forall (differs sep) (Py.str p) = true.
Proof.
  intros Hd Hm. destruct (Z.lt_ge_cases p 0) as [Hneg|Hpos].
  - destruct (str_negative p Hneg) as (s & -> & Hs). simpl.
    rewrite (digits_differ sep s Hd Hs), andb_true_r.
    unfold differs. apply negb_true_iff, Ascii.eqb_neq. congruence.
  - now apply str_differs.
Qed.

Lemma prefix_string_out_of_range p :
  p < 0 \/ 32 < p ->
  ipaddress._make_netmask (ipaddress.MaskStr (Py.str p)) = Raise NetmaskValueError.
Proof.
  intros Hp. unfold ipaddress._make_netmask.
  assert (H1 : ipaddress._prefix_from_prefix_string (Py.str p) = Raise NetmaskValueError).
  { unfold ipaddress._prefix_from_prefix_string.
    destruct (Z.lt_ge_cases p 0) as [Hneg|Hpos].
    - destruct (str_negative p Hneg) as (s & -> & _).
      change (Py.isdigit (String "-" s)) with false.
      now rewrite andb_false_r.
    - rewrite str_isdigit by assumption. cbn [negb]. unfold Py.int.
      destruct (Py.int_max_str_digits <? _); [reflexivity|].
      destruct (str_nonneg p Hpos) as (_ & _ & ->).
      unfold ipaddress._max_prefixlen.
      replace (p <=? 32) with false by (symmetry; apply Z.leb_gt; lia).
      now rewrite andb_false_r. }
  assert (H2 : ipaddress._prefix_from_ip_string (Py.str p) = Raise NetmaskValueError).
  { unfold ipaddress._prefix_from_ip_string, ipaddress._ip_int_from_string.
    rewrite split_no_sep by (apply str_no_sep; [reflexivity | discriminate]).
    destruct (String.eqb (Py.str p) ""); reflexivity. }
  rewrite H1, H2. reflexivity.
Qed.

Lemma IPv4Network_prefix_out_of_range addr p :
  p < 0 \/ 32 < p ->
  exists e, ipaddress.IPv4Network (addr +:+ "/" +:+ Py.str p) = Raise e
            /\ is_ValueError e = true.
Proof.
  intros Hp. unfold ipaddress.IPv4Network, ipaddress._split_addr_prefix,
    ipaddress._split_optional_netmask.
  rewrite split_append_sep_str.
  rewrite (split_no_sep "/" (Py.str p))
    by (apply str_no_sep; [reflexivity | discriminate]).
  pose proof (split_nonempty "/" addr) as Hne.
  destruct (Py.split "/" addr) as [|a0 [|a1 rest]]; [contradiction| |].
  - cbn [app length Nat.ltb Nat.leb rbind].
    destruct (ipaddress.IPv4Address a0) as [ip|e] eqn:Ha.
    + cbn [rbind]. rewrite prefix_string_out_of_range by assumption.
      eexists. split; reflexivity.
    + apply IPv4Address_raises in Ha as ->.
      exists AddressValueError. split; reflexivity.
  - exists AddressValueError. split; [|reflexivity].
    cbn [app length]. rewrite length_app. cbn [length].
    replace (2 <? S (S (length rest + 1)))%nat with true; [reflexivity|].
    symmetry. apply Nat.ltb_lt. lia.
Qed.

(** ** [validate_cidr] *)

Lemma validate_cidr_true s :
  (validate_cidr s).2 = true <-> exists net, ipaddress.IPv4Network s = Ok net.
Proof.
  unfold validate_cidr. destruct (ipaddress.IPv4Network s) as [net|e]; simpl.
  - split; [eauto | reflexivity].
  - split; [discriminate | intros [net [=]]].
Qed.

(** C2 as stated fails: 192.168.1.1 is a well-formed address and 24 is a
    prefix length between 0 and 32, yet [validate_cidr] prints its message
    and returns [False], because the address has bits set below the
    prefix. *)
Lemma validate_cidr_host_bits_counterexample :
  well_formed_ipv4 "192.168.1.1"
  /\ 0 <= 24 <= 32
  /\ cidr_text 192 168 1 1 24 = "192.168.1.1/24"
  /\ validate_cidr "192.168.1.1/24" = ([EPrint invalid_cidr_message], false).
Proof.
  split; [|split; [lia | split; vm_compute; reflexivity]].
  exists 192, 168, 1, 1. unfold is_octet.
  repeat (split; [lia|]). vm_compute. reflexivity.
Qed.

(** C2, as the code has it: on a well-formed dotted quad followed by ["/"]
    and a prefix length [p] between 0 and 32, [validate_cidr] returns
    [True] exactly when the address has no bit set below the prefix (its
    value is a multiple of 2^(32-p)); it returns [False] when the prefix
    length is a number outside 0..32, and whatever it accepts begins with
    a well-formed IPv4 literal, alone or followed by ["/"] and a mask. *)
Theorem validate_cidr_accepts :
  (forall a b c d p,
     is_octet a -> is_octet b -> is_octet c -> is_octet d -> 0 <= p <= 32 ->
     (validate_cidr (cidr_text a b c d p)).2
     = (ip_value a b c d mod 2 ^ (32 - p) =? 0))
  /\ (forall addr p,
        p < 0 \/ 32 < p ->
        (validate_cidr (addr +:+ "/" +:+ Py.str p)).2 = false)
  /\ (forall s,
        (validate_cidr s).2 = true ->
        exists addr,
          well_formed_ipv4 addr
          /\ (s = addr \/ exists mask, s = addr +:+ "/" +:+ mask)).
Proof.
  split; [|split].
  - intros a b c d p Ha Hb Hc Hd Hp. unfold validate_cidr.
    rewrite IPv4Network_cidr_text by assumption.
    destruct (ip_value a b c d mod 2 ^ (32 - p) =? 0); reflexivity.
  - intros addr p Hp. unfold validate_cidr.
    destruct (IPv4Network_prefix_out_of_range addr p Hp) as (e & -> & _).
    reflexivity.
  - intros s Hs. apply validate_cidr_true in Hs as [net Hnet].
    eapply IPv4Network_address, Hnet.
Qed.

(** 192.168.1.0/24 is accepted, 192.168.1.0/33 is not. *)
Lemma validate_cidr_accepts_witness :
  (validate_cidr "192.168.1.0/24").2 = true
  /\ (validate_cidr "192.168.1.0/33").2 = false.
Proof.
  destruct validate_cidr_accepts as (H1 & H2 & _). split.
  - change "192.168.1.0/24" with (cidr_text 192 168 1 0 24).
    rewrite H1 by (unfold is_octet; lia). reflexivity.
  - change "192.168.1.0/33" with ("192.168.1.0" +:+ "/" +:+ Py.str 33).
    apply H2. lia.
Defined.



(** ** The format actually used *)

Lemma valid_formats_cases (f : string) :
  f ∈ valid_formats -> f = "xml" \/ f = "json" \/ f = "grepable" \/ f = "normal".
Proof.
  unfold valid_formats. rewrite !elem_of_cons, elem_of_nil. tauto.
Qed.

Lemma effective_format_valid (f : string) : effective_format f ∈ valid_formats.
Proof.
  unfold effective_format. case_bool_decide; [assumption|].
  unfold valid_formats. apply elem_of_cons. now left.
Qed.

Lemma output_flags_valid (f : string) :
  f ∈ valid_formats ->
  (f = "xml" /\ output_flags !! f = Some "-oX")
  \/ (f = "json" /\ output_flags !! f = Some "-oJ")
  \/ (f = "grepable" /\ output_flags !! f = Some "-oG")
  \/ (f = "normal" /\ output_flags !! f = Some "-oN").
Proof.
  intros Hf. apply valid_formats_cases in Hf.
  destruct Hf as [-> | [-> | [-> | ->]]]; [left | right; left | do 2 right; left | do 3 right];
    (split; [reflexivity | vm_compute; reflexivity]).
Qed.

(** ** The progress loop never reads the keyboard *)

Lemma progress_step_stdin n line stdin :
  (progress_step n line stdin).1.2 = stdin.
Proof.
  unfold progress_step. destruct (utf8.decode line) as [l|]; [|reflexivity].
  destruct (utf8.contains ports_scanned l); reflexivity.
Qed.

Lemma progress_loop_stdin lines : forall n stdin,
  (progress_loop n lines stdin).1.2 = stdin.
Proof.
  induction lines as [|line rest IH]; intros n stdin; [reflexivity|].
  simpl. unfold bind.
  pose proof (progress_step_stdin n line stdin) as Hs.
  destruct (progress_step n line stdin) as [[o1 s1] r1]. simpl in Hs. subst s1.
  destruct r1 as [n'|e]; [|reflexivity].
  specialize (IH n' stdin).
  destruct (progress_loop n' rest stdin) as [[o2 s2] r2]. exact IH.
Qed.

Lemma progress_loop_indep lines : forall n s1 s2,
  (progress_loop n lines s1).1.1 = (progress_loop n lines s2).1.1
  /\ (progress_loop n lines s1).2 = (progress_loop n lines s2).2.
Proof.
  induction lines as [|line rest IH]; intros n s1 s2; [split; reflexivity|].
  simpl. unfold bind, progress_step.
  destruct (utf8.decode line) as [l|]; [|split; reflexivity].
  destruct (utf8.contains ports_scanned l); simpl;
    match goal with
    | |- context [progress_loop ?m rest s1] =>
        destruct (IH m s1 s2) as [He Hr];
        destruct (progress_loop m rest s1) as [[o1 t1] r1];
        destruct (progress_loop m rest s2) as [[o2 t2] r2]
    end; simpl in *; subst; split; reflexivity.
Qed.

Lemma progress_loop_eq n lines stdin :
  progress_loop n lines stdin = (loop_events n lines, stdin, loop_result n lines).
Proof.
  unfold loop_events, loop_result.
  destruct (progress_loop_indep lines n stdin []) as [He Hr].
  pose proof (progress_loop_stdin lines n stdin) as Hs.
  destruct (progress_loop n lines stdin) as [[o t] r]. simpl in *.
  congruence.
Qed.

Lemma scan_network_unfold w target options output_format stdin hosts :
  port_scan w target options = Some hosts ->
  exists flag,
    output_flags !! effective_format output_format = Some flag /\
    scan_network w target options output_format stdin =
      (scan_events w target options output_format flag hosts, stdin,
       match loop_result 0 (popen_stdout w
               (nmap_command flag
                  (generate_unique_filename (now w)
                     (effective_format output_format) target)
                  options target)) with
       | Ok _ => Ok tt
       | Raise e => Raise e
       end).
Proof.
  intros Hscan.
  destruct (output_flags_valid _ (effective_format_valid output_format))
    as [[_ Hf] | [[_ Hf] | [[_ Hf] | [_ Hf]]]];
    eexists; (split; [exact Hf|]);
    unfold scan_network, PortScanner, scan, scan_events, nmap_command,
      overwrite_warning,
      scan_complete, format_warning, print, bind, emit, say, or_raise, ret, raise;
    rewrite Hscan; unfold effective_format in *;
    case_bool_decide; cbv beta iota zeta;
    destruct (path_exists w _); cbv beta iota zeta;
    rewrite Hf; cbv beta iota zeta; rewrite progress_loop_eq;
    destruct (loop_result 0 _);
    cbv beta iota zeta; rewrite ?app_nil_r; reflexivity.
Qed.

(** ** The events of [scan_network] *)

(** When line 113 or 114 raises, nothing else is done. *)
Lemma scan_network_failed w target options output_format stdin :
  port_scan w target options = None ->
  scan_network w target options output_format stdin
  = (match port_scan_failure w target options with
     | InitFailed => []
     | _ => [EPortScan target options]
     end, stdin, Raise (failure_exn (port_scan_failure w target options))).
Proof.
  intros H. unfold scan_network, PortScanner, scan, bind, emit, raise, ret.
  rewrite H. destruct (port_scan_failure w target options); reflexivity.
Qed.

Lemma scan_network_failed_events w target options output_format stdin e :
  port_scan w target options = None ->
  e ∈ (scan_network w target options output_format stdin).1.1 ->
  e = EPortScan target options.
Proof.
  intros H. rewrite scan_network_failed by assumption. cbn [fst].
  destruct (port_scan_failure w target options);
    rewrite ?list_elem_of_singleton, ?elem_of_nil; tauto.
Qed.

Lemma print_ports_lines ports e :
  e ∈ print_ports ports -> exists s, e = EPrint s /\ host_line s = true.
Proof.
  unfold print_ports. rewrite list_elem_of_fmap. intros ([port state] & -> & _).
  eexists. split; reflexivity.
Qed.

Lemma print_protocols_lines protos e :
  e ∈ print_protocols protos -> exists s, e = EPrint s /\ host_line s = true.
Proof.
  unfold print_protocols. rewrite list_elem_of_bind. intros (p & He & _).
  apply elem_of_cons in He as [-> | He]; [eexists; split; reflexivity|].
  eapply print_ports_lines, He.
Qed.

Lemma print_hosts_lines hosts e :
  e ∈ print_hosts hosts -> exists s, e = EPrint s /\ host_line s = true.
Proof.
  unfold print_hosts. rewrite list_elem_of_bind. intros (h & He & _).
  apply elem_of_cons in He as [-> | He]; [eexists; split; reflexivity|].
  apply elem_of_cons in He as [-> | He]; [eexists; split; reflexivity|].
  eapply print_protocols_lines, He.
Qed.

Lemma progress_step_events n line stdin e :
  e ∈ (progress_step n line stdin).1.1 -> e = EPbarUpdate 10 \/ e = ESleep.
Proof.
  unfold progress_step. destruct (utf8.decode line) as [text|]; simpl.
  - destruct (utf8.contains ports_scanned text); simpl;
      rewrite ?elem_of_cons, elem_of_nil; tauto.
  - rewrite elem_of_nil. tauto.
Qed.

Lemma progress_loop_events lines : forall n stdin e,
  e ∈ (progress_loop n lines stdin).1.1 -> e = EPbarUpdate 10 \/ e = ESleep.
Proof.
  induction lines as [|line rest IH]; intros n stdin e; simpl.
  - rewrite elem_of_nil. tauto.
  - unfold bind. pose proof (progress_step_events n line stdin e) as Hs.
    destruct (progress_step n line stdin) as [[o1 s1] [n'|x]]; simpl in *; [|exact Hs].
    specialize (IH n' s1 e).
    destruct (progress_loop n' rest s1) as [[o2 s2] r2]. simpl in *.
    rewrite elem_of_app. tauto.
Qed.

Lemma loop_events_kinds n lines e :
  e ∈ loop_events n lines -> e = EPbarUpdate 10 \/ e = ESleep.
Proof. apply progress_loop_events. Qed.

Lemma progress_step_raises n line stdin e :
  (progress_step n line stdin).2 = Raise e -> e = UnicodeDecodeError.
Proof.
  unfold progress_step. destruct (utf8.decode line) as [text|]; simpl.
  - destruct (utf8.contains ports_scanned text); discriminate.
  - congruence.
Qed.

Lemma progress_loop_raises lines : forall n stdin e,
  (progress_loop n lines stdin).2 = Raise e -> e = UnicodeDecodeError.
Proof.
  induction lines as [|line rest IH]; intros n stdin e; simpl; [discriminate|].
  unfold bind. pose proof (progress_step_raises n line stdin e) as Hs.
  destruct (progress_step n line stdin) as [[o1 s1] [n'|x]]; simpl in *; [|exact Hs].
  specialize (IH n' s1 e).
  destruct (progress_loop n' rest s1) as [[o2 s2] r2]. exact IH.
Qed.

(** Where an event of [scan_events] comes from. *)
Lemma scan_events_cases w target options output_format flag hosts e :
  e ∈ scan_events w target options output_format flag hosts ->
  let filename :=
    generate_unique_filename (now w) (effective_format output_format) target in
  e = EPortScan target options
  \/ (exists s, e = EPrint s /\ host_line s = true)
  \/ (e = EPrint format_warning /\ output_format ∉ valid_formats)
  \/ (e = EPrint (overwrite_warning filename) /\ path_exists w filename = true)
  \/ e = EPopen (nmap_command flag filename options target)
  \/ e = EPbarUpdate 10 \/ e = ESleep \/ e = ECommunicate
  \/ e = EPrint (scan_complete filename).
Proof.
  unfold scan_events. cbv zeta.
  rewrite elem_of_cons, !elem_of_app, elem_of_cons, elem_of_app.
  intros [-> | [H | [H | [H | [-> | [H | H]]]]]].
  - tauto.
  - right; left. eapply print_hosts_lines, H.
  - case_bool_decide; [apply elem_of_nil in H as []|].
    apply list_elem_of_singleton in H as ->. tauto.
  - destruct (path_exists w _) eqn:Hex; [|apply elem_of_nil in H as []].
    apply list_elem_of_singleton in H as ->. tauto.
  - tauto.
  - apply loop_events_kinds in H. tauto.
  - destruct (loop_result 0 _); [|apply elem_of_nil in H as []].
    rewrite !elem_of_cons, elem_of_nil in H. destruct H as [-> | [-> | []]]; tauto.
Qed.

Lemma output_flag_for_lookup (f : string) :
  f ∈ valid_formats -> output_flags !! f = Some (output_flag_for f).
Proof.
  intros Hf. apply valid_formats_cases in Hf.
  destruct Hf as [-> | [-> | [-> | ->]]]; vm_compute; reflexivity.
Qed.

Lemma effective_format_id (f : string) : f ∈ valid_formats -> effective_format f = f.
Proof. intros Hf. unfold effective_format. now rewrite bool_decide_eq_true_2. Qed.

Lemma effective_format_default (f : string) : f ∉ valid_formats -> effective_format f = "xml".
Proof. intros Hf. unfold effective_format. now rewrite bool_decide_eq_false_2. Qed.

Lemma scan_events_popen w target options output_format flag hosts :
  EPopen (nmap_command flag
            (generate_unique_filename (now w) (effective_format output_format) target)
            options target)
  ∈ scan_events w target options output_format flag hosts.
Proof.
  unfold scan_events. cbv zeta.
  rewrite elem_of_cons, !elem_of_app, elem_of_cons. tauto.
Qed.

(** C1: for an unrecognized output format [scan_network] prints the warning
    and goes on exactly as for ["xml"] (file name and [-oX] flag); for a
    recognized format no warning is printed and the format is used as
    given, with the flag the table gives it. *)
Theorem scan_network_format_substitution
    (w : world) (target options output_format : string)
    (stdin : list string) (hosts : list host_report) :
  port_scan w target options = Some hosts ->
  let out := (scan_network w target options output_format stdin).1.1 in
  (output_format ∉ valid_formats ->
     EPrint format_warning ∈ out
     /\ EPopen (nmap_command "-oX"
                  (generate_unique_filename (now w) "xml" target) options target)
        ∈ out
     /\ exists rest,
          out = EPortScan target options :: print_hosts hosts
                ++ EPrint format_warning :: rest
          /\ (scan_network w target options "xml" stdin).1.1
             = EPortScan target options :: print_hosts hosts ++ rest
          /\ (scan_network w target options output_format stdin).2
             = (scan_network w target options "xml" stdin).2)
  /\ (output_format ∈ valid_formats ->
     (EPrint format_warning ∉ out)
     /\ exists flag,
          output_flags !! output_format = Some flag
          /\ EPopen (nmap_command flag
                       (generate_unique_filename (now w) output_format target)
                       options target)
             ∈ out).
Proof.
  intros Hscan out. subst out.
  destruct (scan_network_unfold w target options output_format stdin hosts Hscan)
    as (flag & Hflag & Heq).
  rewrite Heq. cbn [fst snd]. split.
  - intros Hinv.
    destruct (scan_network_unfold w target options "xml" stdin hosts Hscan)
      as (flag' & Hflag' & Heq').
    rewrite Heq'. cbn [fst snd].
    rewrite (effective_format_default _ Hinv) in *.
    rewrite (effective_format_id "xml") in * by (apply elem_of_cons; now left).
    assert (flag = "-oX") as -> by (vm_compute in Hflag; congruence).
    assert (flag' = "-oX") as -> by (vm_compute in Hflag'; congruence).
    split; [|split].
    + unfold scan_events. rewrite bool_decide_eq_false_2 by assumption.
      rewrite elem_of_cons, !elem_of_app, list_elem_of_singleton. tauto.
    + pose proof (scan_events_popen w target options output_format "-oX" hosts) as H.
      now rewrite (effective_format_default _ Hinv) in H.
    + eexists. unfold scan_events.
      rewrite bool_decide_eq_false_2 by assumption.
      rewrite bool_decide_eq_true_2 by (apply elem_of_cons; now left).
      rewrite (effective_format_default _ Hinv).
      rewrite (effective_format_id "xml") by (apply elem_of_cons; now left).
      cbv zeta. split; [|split]; reflexivity.
  - intros Hval. rewrite (effective_format_id _ Hval) in Hflag.
    split.
    + intros Hin. apply scan_events_cases in Hin. cbv zeta in Hin.
      destruct Hin as [H | [H | [[_ H] | [[H _] | [H | [H | [H | [H | H]]]]]]]];
        try discriminate H; try contradiction.
      * destruct H as (s & [= <-] & Hs). vm_compute in Hs. discriminate.
    + exists flag. split; [exact Hflag|].
      pose proof (scan_events_popen w target options output_format flag hosts) as H.
      now rewrite (effective_format_id _ Hval) in H.
Qed.

(** The sample run with the format ["yaml"]. *)
Lemma scan_network_format_substitution_witness :
  EPrint format_warning
    ∈ (scan_network sample_world "192.168.1.0/30" default_options "yaml" []).1.1
  /\ EPopen "nmap -oX nmap_scan_192_168_1_0_30_20240307_090500.xml -sS -sV -O -A -p 1-1000 192.168.1.0/30"
    ∈ (scan_network sample_world "192.168.1.0/30" default_options "yaml" []).1.1.
Proof.
  pose proof (scan_network_format_substitution sample_world "192.168.1.0/30"
    default_options "yaml" [] sample_hosts eq_refl) as [H _].
  destruct H as (H1 & H2 & _).
  - unfold valid_formats. rewrite !not_elem_of_cons. repeat split; try discriminate.
    apply not_elem_of_nil.
  - split; [exact H1 | exact H2].
Defined.

(** C7: the only command [scan_network] ever starts is
    ["nmap " + flag + " " + filename + " " + options + " " + target], with
    the flag and the file name of the format actually used; it is started
    whenever the first scan returns. *)
Theorem scan_network_command
    (w : world) (target options output_format : string) (stdin : list string) :
  let fmt := effective_format output_format in
  let command :=
    "nmap " +:+ output_flag_for fmt +:+ " "
    +:+ generate_unique_filename (now w) fmt target +:+ " "
    +:+ options +:+ " " +:+ target in
  let out := (scan_network w target options output_format stdin).1.1 in
  (forall cmd, EPopen cmd ∈ out -> cmd = command)
  /\ (forall hosts, port_scan w target options = Some hosts -> EPopen command ∈ out).
Proof.
  cbv zeta.
  destruct (port_scan w target options) as [hosts|] eqn:Hscan.
  - destruct (scan_network_unfold w target options output_format stdin hosts Hscan)
      as (flag & Hflag & Heq).
    rewrite Heq. cbn [fst snd].
    rewrite (output_flag_for_lookup _ (effective_format_valid output_format)) in Hflag.
    injection Hflag as <-. split.
    + intros cmd Hin. apply scan_events_cases in Hin. cbv zeta in Hin.
      destruct Hin as [H | [(s & H & _) | [[H _] | [[H _] | [H | [H | [H | [H | H]]]]]]]];
        try discriminate H.
      injection H as ->. reflexivity.
    + intros hosts' _. apply scan_events_popen.
  - split.
    + intros cmd Hin. apply scan_network_failed_events in Hin; [|assumption].
      discriminate.
    + intros hosts' [=].
Qed.

(** The sample run with the format ["grepable"]. *)
Lemma scan_network_command_witness :
  EPopen "nmap -oG nmap_scan_192_168_1_0_30_20240307_090500.grepable -sS -sV -O -A -p 1-1000 192.168.1.0/30"
    ∈ (scan_network sample_world "192.168.1.0/30" default_options "grepable" []).1.1.
Proof.
  exact (proj2 (scan_network_command sample_world "192.168.1.0/30"
                  default_options "grepable" []) sample_hosts eq_refl).
Defined.









(** C10: whatever the requested format, the format after the substitution
    step is one of the four recognized names and a key of the flag table,
    so the lookup yields one of the four flags, [scan_network] never
    raises [KeyError], and the file name ends in a recognized name. *)
Theorem output_flag_lookup_total (output_format : string) :
  let fmt := effective_format output_format in
  fmt ∈ valid_formats
  /\ (exists flag,
        output_flags !! fmt = Some flag
        /\ flag ∈ ["-oX"; "-oJ"; "-oG"; "-oN"])
  /\ (forall w target options stdin,
        (scan_network w target options output_format stdin).2 <> Raise KeyError)
  /\ (forall clock target,
        exists stem,
          generate_unique_filename clock fmt target = stem +:+ "." +:+ fmt).
Proof.
  cbv zeta. split; [apply effective_format_valid|]. split; [|split].
  - destruct (output_flags_valid _ (effective_format_valid output_format))
      as [[_ H] | [[_ H] | [[_ H] | [_ H]]]];
      eexists; (split; [exact H|]); rewrite !elem_of_cons; tauto.
  - intros w target options stdin.
    destruct (port_scan w target options) as [hosts|] eqn:Hscan.
    + destruct (scan_network_unfold w target options output_format stdin hosts Hscan)
        as (flag & _ & Heq).
      rewrite Heq. cbn [snd].
      destruct (loop_result 0 _) as [n|e] eqn:Hl; [discriminate|].
      apply progress_loop_raises in Hl as ->. discriminate.
    + rewrite scan_network_failed by assumption. cbn [snd].
      destruct (port_scan_failure w target options); discriminate.
  - intros clock target. unfold generate_unique_filename.
    exists ("nmap_scan_" +:+ Py.replace "." "_" (Py.replace "/" "_" target) +:+ "_"
            +:+ datetime.strftime clock "%Y%m%d_%H%M%S").
    rewrite !append_assoc. reflexivity.
Qed.

(** ** The output file name *)

Lemma numeral_b_spec width s v : numeral_b width s v = true -> numeral width s v.
Proof.
  unfold numeral_b, numeral. rewrite !andb_true_iff, Nat.eqb_eq, Z.eqb_eq. tauto.
Qed.

Lemma zfill_2 v : 0 <= v <= 99 -> numeral 2 (Py.zfill 2 v) v.
Proof.
  intros Hv. apply numeral_b_spec.
  apply (range_check (fun v => numeral_b 2 (Py.zfill 2 v) v) 0 100);
    [vm_compute; reflexivity | lia].
Qed.

Lemma zfill_4 v : 0 <= v <= 9999 -> numeral 4 (Py.zfill 4 v) v.
Proof.
  intros Hv. apply numeral_b_spec.
  apply (range_check (fun v => numeral_b 4 (Py.zfill 4 v) v) 0 10000);
    [vm_compute; reflexivity | lia].
Qed.

Lemma strftime_timestamp clock :
  datetime.strftime clock "%Y%m%d_%H%M%S"
  = Py.zfill 4 (datetime.year clock) +:+ Py.zfill 2 (datetime.month clock)
    +:+ Py.zfill 2 (datetime.day clock) +:+ "_"
    +:+ Py.zfill 2 (datetime.hour clock) +:+ Py.zfill 2 (datetime.minute clock)
    +:+ Py.zfill 2 (datetime.second clock).
Proof.
  cbn [datetime.strftime Ascii.eqb Bool.eqb].
  rewrite append_nil_r. reflexivity.
Qed.

(** C3: the file name is ["nmap_scan_"], the target with every ["/"] and
    ["."] turned into ["_"], ["_"], the clock as YYYYMMDD_HHMMSS (four,
    two and two digits, an underscore, two, two and two digits, each group
    the numeral of its field), ["."] and the format it was given. *)
Theorem generate_unique_filename_form
    (clock : datetime.datetime) (output_format target_cidr : string) :
  datetime.valid clock ->
  exists YYYY mm dd HH MM SS,
    numeral 4 YYYY (datetime.year clock)
    /\ numeral 2 mm (datetime.month clock)
    /\ numeral 2 dd (datetime.day clock)
    /\ numeral 2 HH (datetime.hour clock)
    /\ numeral 2 MM (datetime.minute clock)
    /\ numeral 2 SS (datetime.second clock)
    /\ generate_unique_filename clock output_format target_cidr
       = "nmap_scan_" +:+ translate safe_char target_cidr +:+ "_"
         +:+ (YYYY +:+ mm +:+ dd +:+ "_" +:+ HH +:+ MM +:+ SS)
         +:+ "." +:+ output_format.
Proof.
  intros (Hy & Hm & Hd & HH & HM & HS).
  exists (Py.zfill 4 (datetime.year clock)), (Py.zfill 2 (datetime.month clock)),
    (Py.zfill 2 (datetime.day clock)), (Py.zfill 2 (datetime.hour clock)),
    (Py.zfill 2 (datetime.minute clock)), (Py.zfill 2 (datetime.second clock)).
  repeat (split; [first [apply zfill_4 | apply zfill_2]; lia|]).
  unfold generate_unique_filename.
  rewrite strftime_timestamp, safe_target_translate. reflexivity.
Qed.

(** The sample clock, 2024-03-07 09:05:00. *)
Lemma generate_unique_filename_form_witness :
  exists YYYY mm dd HH MM SS,
    numeral 4 YYYY 2024 /\ numeral 2 mm 3 /\ numeral 2 dd 7
    /\ numeral 2 HH 9 /\ numeral 2 MM 5 /\ numeral 2 SS 0
    /\ generate_unique_filename sample_clock "xml" "192.168.1.0/30"
       = "nmap_scan_" +:+ translate safe_char "192.168.1.0/30" +:+ "_"
         +:+ (YYYY +:+ mm +:+ dd +:+ "_" +:+ HH +:+ MM +:+ SS)
         +:+ "." +:+ "xml".
Proof.
  apply (generate_unique_filename_form sample_clock "xml" "192.168.1.0/30").
  unfold datetime.valid. simpl. lia.
Defined.

(** ** The prompts *)

Lemma validate_cidr_events cidr :
  validate_cidr cidr
  = (if (validate_cidr cidr).2 then [] else [EPrint invalid_cidr_message],
     (validate_cidr cidr).2).
Proof. unfold validate_cidr. destruct (ipaddress.IPv4Network cidr); reflexivity. Qed.

Lemma get_user_input_ok stdin : forall out rest cidr,
  get_user_input stdin = (out, rest, Ok cidr) ->
  exists before line,
    stdin = before ++ line :: rest
    /\ cidr = Py.strip line
    /\ (validate_cidr cidr).2 = true
    /\ Forall rejected before
    /\ out = (before ≫= fun _ => rejected_turn) ++ [EInput cidr_prompt].
Proof.
  induction stdin as [|line stdin IH]; intros out rest cidr H; simpl in H;
    [discriminate|].
  rewrite validate_cidr_events in H.
  destruct (validate_cidr (Py.strip line)).2 eqn:Hv.
  - injection H as <- <- <-. exists [], line.
    repeat split; [exact Hv | constructor].
  - destruct (get_user_input stdin) as [[out' rest'] r] eqn:Hrec.
    injection H as <- <- ->.
    destruct (IH _ _ _ eq_refl) as (before & l & -> & -> & Hok & Hrej & ->).
    exists (line :: before), l.
    repeat split; [exact Hok | constructor; assumption].
Qed.

Lemma get_user_input_raise stdin : forall out rest e,
  get_user_input stdin = (out, rest, Raise e) ->
  e = EOFError /\ rest = [] /\ Forall rejected stdin
  /\ out = (stdin ≫= fun _ => rejected_turn) ++ [EInput cidr_prompt].
Proof.
  induction stdin as [|line stdin IH]; intros out rest e H; simpl in H.
  - injection H as <- <- <-. repeat split. constructor.
  - rewrite validate_cidr_events in H.
    destruct (validate_cidr (Py.strip line)).2 eqn:Hv; [discriminate|].
    destruct (get_user_input stdin) as [[out' rest'] r] eqn:Hrec.
    injection H as <- <- ->.
    destruct (IH _ _ _ eq_refl) as (-> & -> & Hrej & ->).
    repeat split. constructor; assumption.
Qed.

Lemma get_user_input_events stdin e :
  e ∈ (get_user_input stdin).1.1 ->
  e = EInput cidr_prompt \/ e = EPrint invalid_cidr_message.
Proof.
  destruct (get_user_input stdin) as [[out rest] [cidr|x]] eqn:H; cbn [fst].
  - apply get_user_input_ok in H as (before & line & _ & _ & _ & _ & ->).
    rewrite elem_of_app, list_elem_of_bind, list_elem_of_singleton.
    intros [(l & He & _) | ->]; [|tauto].
    unfold rejected_turn in He. rewrite !elem_of_cons, elem_of_nil in He. tauto.
  - apply get_user_input_raise in H as (_ & _ & _ & ->).
    rewrite elem_of_app, list_elem_of_bind, list_elem_of_singleton.
    intros [(l & He & _) | ->]; [|tauto].
    unfold rejected_turn in He. rewrite !elem_of_cons, elem_of_nil in He. tauto.
Qed.

Lemma scan_network_port_scan w target options output_format stdin t o :
  EPortScan t o ∈ (scan_network w target options output_format stdin).1.1 ->
  t = target /\ o = options.
Proof.
  destruct (port_scan w target options) as [hosts|] eqn:Hscan.
  - destruct (scan_network_unfold w target options output_format stdin hosts Hscan)
      as (flag & _ & ->).
    cbn [fst]. intros Hin. apply scan_events_cases in Hin. cbv zeta in Hin.
    destruct Hin as [H | [(s & H & _) | [[H _] | [[H _] | [H | [H | [H | [H | H]]]]]]]];
      try discriminate H.
    injection H as -> ->. split; reflexivity.
  - intros [= -> ->]%scan_network_failed_events; [|assumption].
    split; reflexivity.
Qed.

(** The run of [main] after an answer other than yes. *)
Lemma main_scan_flow w answer stdin :
  Py.lower (Py.strip answer) <> "yes" ->
  main w (answer :: stdin)
  = bind (emit (EInput help_prompt))
      (fun _ =>
         target_cidr <~ get_user_input;
         line <~ input format_prompt;
         scan_network w target_cidr default_options (Py.lower (Py.strip line)))
      stdin.
Proof.
  intros Hno. apply String.eqb_neq in Hno.
  unfold main, bind at 1, input at 1. cbv beta iota. rewrite Hno.
  unfold bind at 3, emit. cbv beta iota.
  destruct (bind get_user_input _ stdin) as [[o s] r]. reflexivity.
Qed.

Lemma main_help w answer stdin :
  Py.lower (Py.strip answer) = "yes" ->
  main w (answer :: stdin) = ([EInput help_prompt; EPrint help_text], stdin, Ok tt).
Proof.
  intros Hyes. apply String.eqb_eq in Hyes.
  unfold main, bind, input. cbv beta iota. rewrite Hyes. reflexivity.
Qed.

Lemma get_user_input_first stdin :
  exists out, (get_user_input stdin).1.1 = EInput cidr_prompt :: out.
Proof.
  destruct stdin as [|line stdin]; simpl; [eexists; reflexivity|].
  destruct (validate_cidr (Py.strip line)) as [o []]; [eexists; reflexivity|].
  destruct (get_user_input stdin) as [[o' s'] r']. eexists; reflexivity.
Qed.

Lemma main_port_scan_valid w stdin t o :
  EPortScan t o ∈ (run (main w) stdin).1 -> (validate_cidr t).2 = true.
Proof.
  destruct stdin as [|answer stdin].
  - unfold run, main, bind, input. cbn [fst].
    intros [=]%list_elem_of_singleton.
  - destruct (String.eqb_spec (Py.lower (Py.strip answer)) "yes") as [Hyes|Hno].
    + unfold run. rewrite main_help by assumption. cbn [fst].
      rewrite !elem_of_cons, elem_of_nil. intros [[=] | [[=] | []]].
    + unfold run. rewrite main_scan_flow by assumption.
      unfold bind at 1, emit. cbv beta iota. unfold bind at 1.
      pose proof (get_user_input_events stdin (EPortScan t o)) as Hev.
      destruct (get_user_input stdin) as [[o1 s1] [cidr|e]] eqn:Hg; cbn [fst] in Hev.
      * apply get_user_input_ok in Hg as (_ & _ & _ & _ & Hok & _ & _).
        unfold bind at 1, input.
        destruct s1 as [|line s2]; cbn [fst app].
        -- rewrite elem_of_cons, elem_of_app, list_elem_of_singleton.
           intros [[=] | [H | [=]]]. destruct (Hev H) as [[=] | [=]].
        -- pose proof (scan_network_port_scan w cidr default_options
             (Py.lower (Py.strip line)) s2 t o) as Hs.
           destruct (scan_network w cidr default_options _ s2) as [[o3 s3] r3].
           cbn [fst] in *.
           rewrite elem_of_cons, elem_of_app, elem_of_cons.
           intros [[=] | [H | [[=] | H]]].
           ++ destruct (Hev H) as [[=] | [=]].
           ++ destruct (Hs H) as [-> _]. exact Hok.
      * cbn [fst app]. rewrite elem_of_cons.
        intros [[=] | H]. destruct (Hev H) as [[=] | [=]].
Qed.

(** C4: [get_user_input] returns the first line that [validate_cidr]
    accepts once stripped, having answered every earlier line with the
    error message and a new prompt; it stops otherwise only when the input
    ends.  In [main] no scan is started on a target that [validate_cidr]
    has not accepted. *)
Theorem get_user_input_returns_first_valid (stdin : list string) :
  match get_user_input stdin with
  | (out, rest, Ok cidr) =>
      exists before line,
        stdin = before ++ line :: rest
        /\ cidr = Py.strip line
        /\ (validate_cidr cidr).2 = true
        /\ Forall rejected before
        /\ out = (before ≫= fun _ => rejected_turn) ++ [EInput cidr_prompt]
  | (out, rest, Raise e) =>
      e = EOFError /\ rest = [] /\ Forall rejected stdin
      /\ out = (stdin ≫= fun _ => rejected_turn) ++ [EInput cidr_prompt]
  end
  /\ forall w t o,
       EPortScan t o ∈ (run (main w) stdin).1 -> (validate_cidr t).2 = true.
Proof.
  split; [|intros w t o; apply main_port_scan_valid].
  destruct (get_user_input stdin) as [[out rest] [cidr|e]] eqn:H.
  - now apply get_user_input_ok.
  - now apply get_user_input_raise.
Qed.

(** C6: after the answer yes (in any case, with any white space around)
    [main] prints the usage text and returns: no CIDR prompt, no scan, no
    command.  After any other answer the next thing it does is to prompt
    for the CIDR range, and it goes on with the scan flow. *)
Theorem main_help_short_circuit (w : world) (answer : string) (stdin : list string) :
  (Py.lower (Py.strip answer) = "yes" ->
     main w (answer :: stdin)
     = ([EInput help_prompt; EPrint help_text], stdin, Ok tt))
  /\ (Py.lower (Py.strip answer) <> "yes" ->
     (exists out,
        (run (main w) (answer :: stdin)).1
        = EInput help_prompt :: EInput cidr_prompt :: out)
     /\ main w (answer :: stdin)
        = bind (emit (EInput help_prompt))
            (fun _ =>
               target_cidr <~ get_user_input;
               line <~ input format_prompt;
               scan_network w target_cidr default_options
                 (Py.lower (Py.strip line)))
            stdin).
Proof.
  split; [apply main_help|]. intros Hno.
  split; [|now apply main_scan_flow].
  unfold run. rewrite main_scan_flow by assumption.
  unfold bind at 1, emit. cbv beta iota. unfold bind at 1.
  destruct (get_user_input_first stdin) as (out & Hout).
  destruct (get_user_input stdin) as [[o1 s1] [cidr|e]]; cbn [fst] in Hout; subst o1.
  - destruct (bind (input format_prompt) _ s1) as [[o2 s2] r2].
    eexists. reflexivity.
  - eexists. reflexivity.
Qed.

(** The answers [" YES "] and ["no"] on the sample run. *)
Lemma main_help_short_circuit_witness :
  main sample_world [" YES "; "192.168.1.0/30"; "xml"]
  = ([EInput help_prompt; EPrint help_text], ["192.168.1.0/30"; "xml"], Ok tt)
  /\ exists out,
       (run (main sample_world) ["no"; "192.168.1.0/30"; "xml"]).1
       = EInput help_prompt :: EInput cidr_prompt :: out.
Proof.
  split.
  - apply (proj1 (main_help_short_circuit sample_world " YES "
                    ["192.168.1.0/30"; "xml"])).
    vm_compute. reflexivity.
  - apply (proj2 (main_help_short_circuit sample_world "no"
                    ["192.168.1.0/30"; "xml"])).
    vm_compute. discriminate.
Defined.

(** ** The progress count *)

Lemma loop_result_nil n : loop_result n [] = Ok n.
Proof. reflexivity. Qed.

Lemma loop_result_cons n line rest :
  loop_result n (line :: rest)
  = match utf8.decode line with
    | None => Raise UnicodeDecodeError
    | Some _ => loop_result (if line_matches line then n + 10 else n) rest
    end.
Proof.
  unfold loop_result, line_matches. simpl. unfold bind, progress_step.
  destruct (utf8.decode line) as [text|]; [|reflexivity].
  destruct (utf8.contains ports_scanned text); simpl;
    match goal with
    | |- context [progress_loop ?m rest ?s] =>
        destruct (progress_loop m rest s) as [[o2 s2] r2]
    end; reflexivity.
Qed.

Lemma loop_result_app pre : forall n post,
  loop_result n (pre ++ post)
  = match loop_result n pre with
    | Ok a => loop_result a post
    | Raise e => Raise e
    end.
Proof.
  induction pre as [|line pre IH]; intros n post; [reflexivity|].
  cbn [app]. rewrite !loop_result_cons.
  destruct (utf8.decode line); [apply IH | reflexivity].
Qed.

Lemma matching_lines_nonneg lines : 0 <= matching_lines lines.
Proof.
  induction lines as [|line rest IH]; simpl; [lia|].
  destruct (line_matches line); lia.
Qed.

Lemma matching_lines_app pre post :
  matching_lines (pre ++ post) = matching_lines pre + matching_lines post.
Proof. induction pre as [|line pre IH]; simpl; [reflexivity | rewrite IH; lia]. Qed.

Lemma loop_result_count lines : forall n m,
  loop_result n lines = Ok m -> m = n + 10 * matching_lines lines.
Proof.
  induction lines as [|line rest IH]; intros n m H.
  - rewrite loop_result_nil in H. injection H as <-. simpl. lia.
  - rewrite loop_result_cons in H.
    destruct (utf8.decode line); [|discriminate].
    apply IH in H. simpl. destruct (line_matches line); lia.
Qed.

(** C5, as the code has it: the count after any further lines is the
    count before them plus 10 for each of those lines that contains
    "Ports scanned"; so it never decreases.  At the end of the output it
    is 10 times the number of such lines, which is the total of 1000 only
    when exactly 100 lines contained the words. *)
Theorem progress_count_monotone (pre post : list (list byte)) (a b : Z) :
  loop_result 0 pre = Ok a ->
  loop_result 0 (pre ++ post) = Ok b ->
  a = 10 * matching_lines pre
  /\ b = a + 10 * matching_lines post
  /\ 0 <= a <= b
  /\ (b = total_ports <-> matching_lines (pre ++ post) = 100)
  /\ (forall e, e ∈ loop_events 0 (pre ++ post) -> e = EPbarUpdate 10 \/ e = ESleep).
Proof.
  intros Ha Hb.
  pose proof (loop_result_count _ _ _ Ha) as Ea.
  pose proof (loop_result_count _ _ _ Hb) as Eb.
  rewrite matching_lines_app in *.
  pose proof (matching_lines_nonneg pre). pose proof (matching_lines_nonneg post).
  unfold total_ports.
  repeat split; try lia. intros e. apply loop_events_kinds.
Qed.

(** The three lines of the sample run: the count is 10 after two of them
    and after all of them. *)
Lemma progress_count_monotone_witness :
  10 = 10 * matching_lines
              [utf8.bytes_of "Starting Nmap 7.94"; utf8.bytes_of "Ports scanned: 10"]
  /\ 10 = 10 + 10 * matching_lines
                     [utf8.bytes_of "Nmap done: 4 IP addresses (1 host up) scanned"]
  /\ 0 <= 10 <= 10.
Proof.
  destruct (progress_count_monotone
    [utf8.bytes_of "Starting Nmap 7.94"; utf8.bytes_of "Ports scanned: 10"]
    [utf8.bytes_of "Nmap done: 4 IP addresses (1 host up) scanned"] 10 10)
    as (H1 & H2 & H3 & _).
  - vm_compute. reflexivity.
  - vm_compute. reflexivity.
  - repeat split; assumption || apply H3.
Defined.

(** C5 as stated fails: on an ordinary output of nmap the scan completes
    with the count still at 0, not at the total. *)
Lemma progress_total_counterexample :
  (run (scan_network quiet_world "192.168.1.0/30" default_options "xml") []).2 = Ok tt
  /\ loop_result 0 quiet_output = Ok 0
  /\ (forall n, EPbarUpdate n ∈
        (run (scan_network quiet_world "192.168.1.0/30" default_options "xml") []).1
        -> False)
  /\ 0 <> total_ports.
Proof.
  split; [vm_compute; reflexivity|].
  split; [vm_compute; reflexivity|].
  split; [|discriminate].
  intros n.
  remember (run (scan_network quiet_world "192.168.1.0/30" default_options "xml") []).1
    as out eqn:Hout.
  vm_compute in Hout. subst out.
  rewrite !elem_of_cons, elem_of_nil.
  intros H. repeat (destruct H as [H | H]; [discriminate H|]). exact H.
Qed.

(** * Further properties *)

(** ** More on what [validate_cidr] accepts *)

Lemma digit_or_dot_digits s :
  string_forall is_ascii_digit s = true -> string_forall digit_or_dot s = true.
Proof.
  apply string_forall_impl. intros c Hc. unfold digit_or_dot. now rewrite Hc.
Qed.

Lemma str_digit_or_dot n :
  0 <= n -> string_forall digit_or_dot (Py.str n) = true.
Proof. intros Hn. now apply digit_or_dot_digits, str_nonneg. Qed.

Lemma dotted_quad_digit_or_dot a b c d :
  0 <= a -> 0 <= b -> 0 <= c -> 0 <= d ->
  string_forall digit_or_dot (dotted_quad a b c d) = true.
Proof.
  intros Ha Hb Hc Hd. unfold dotted_quad.
  rewrite !string_forall_append.
  rewrite !str_digit_or_dot by assumption.
  reflexivity.
Qed.

Lemma well_formed_digit_or_dot addr :
  well_formed_ipv4 addr -> string_forall digit_or_dot addr = true.
Proof.
  intros (a & b & c & d & Ha & Hb & Hc & Hd & ->).
  apply dotted_quad_digit_or_dot; unfold is_octet in *; lia.
Qed.

Lemma mask_text_digit_or_dot mask :
  mask_text mask -> string_forall digit_or_dot mask = true.
Proof.
  intros [[Hd _] | Hw]; [now apply digit_or_dot_digits|].
  now apply well_formed_digit_or_dot.
Qed.

Lemma make_netmask_mask_text mask np :
  ipaddress._make_netmask (ipaddress.MaskStr mask) = Ok np -> mask_text mask.
Proof.
  unfold ipaddress._make_netmask. intros H.
  destruct (ipaddress._prefix_from_prefix_string mask) as [p|] eqn:Hp.
  - left. unfold ipaddress._prefix_from_prefix_string in Hp.
    destruct (Py.isascii mask && Py.isdigit mask) eqn:Hd; [|discriminate].
    now apply isascii_isdigit_ascii_digits.
  - right. unfold ipaddress._prefix_from_ip_string in H.
    destruct (ipaddress._ip_int_from_string mask) as [ip|] eqn:Hi;
      [|discriminate].
    apply ip_int_from_string_inv in Hi
      as (a & b & c & d & Ha & Hb & Hc & Hd & -> & _).
    exists a, b, c, d. repeat (split; [assumption|]). reflexivity.
Qed.

Lemma IPv4Network_shape s net : ipaddress.IPv4Network s = Ok net -> cidr_shape s.
Proof.
  unfold ipaddress.IPv4Network, ipaddress._split_addr_prefix,
    ipaddress._split_optional_netmask. intros H.
  pose proof (join_split "/" s) as Hj.
  assert (Haddr : forall addr ip,
    ipaddress.IPv4Address addr = Ok ip -> well_formed_ipv4 addr).
  { intros addr ip Ha. unfold ipaddress.IPv4Address in Ha.
    destruct (Py.contains "/" addr); [discriminate|].
    apply ip_int_from_string_inv in Ha
      as (a & b & c & d & ? & ? & ? & ? & -> & _).
    exists a, b, c, d. repeat (split; [assumption|]). reflexivity. }
  destruct (Py.split "/" s) as [|addr [|mask [|x xs]]]; try discriminate H;
    cbn [length Nat.ltb Nat.leb rbind] in H;
    (destruct (ipaddress.IPv4Address addr) as [ip|] eqn:Ha; [|discriminate H]);
    apply Haddr in Ha; exists addr; (split; [exact Ha|]).
  - left. symmetry. exact Hj.
  - right. exists mask. split; [|symmetry; exact Hj].
    cbn [rbind] in H.
    destruct (ipaddress._make_netmask (ipaddress.MaskStr mask)) as [np|] eqn:Hm;
      [|discriminate H].
    eapply make_netmask_mask_text, Hm.
Qed.

Lemma validate_cidr_shape s : (validate_cidr s).2 = true -> cidr_shape s.
Proof.
  intros [net Hnet]%validate_cidr_true. eapply IPv4Network_shape, Hnet.
Qed.

Lemma cidr_shape_chars s : cidr_shape s -> string_forall cidr_char s = true.
Proof.
  assert (Hdd : forall t, string_forall digit_or_dot t = true ->
                          string_forall cidr_char t = true).
  { intros t. apply string_forall_impl. intros c Hc. unfold cidr_char.
    unfold digit_or_dot in Hc. now rewrite Hc. }
  intros (addr & Hw & [-> | (mask & Hm & ->)]).
  - now apply Hdd, well_formed_digit_or_dot.
  - rewrite !string_forall_append.
    rewrite (Hdd addr) by now apply well_formed_digit_or_dot.
    rewrite (Hdd mask) by now apply mask_text_digit_or_dot.
    reflexivity.
Qed.

Lemma mask_text_no_slash mask :
  mask_text mask -> string_forall (differs "/") mask = true.
Proof.
  intros Hm. apply mask_text_digit_or_dot in Hm. revert Hm.
  apply string_forall_impl. intros c Hc. unfold differs.
  apply negb_true_iff, Ascii.eqb_neq. intros ->. discriminate Hc.
Qed.

Lemma well_formed_no_slash addr :
  well_formed_ipv4 addr -> string_forall (differs "/") addr = true.
Proof.
  intros (a & b & c & d & Ha & Hb & Hc & Hd & ->).
  apply dotted_quad_no_slash; unfold is_octet in *; lia.
Qed.

(** X3: a text that [validate_cidr] accepts is made of digits, dots and at
    most one slash, and is not empty. *)
Theorem validate_cidr_characters (s : string) :
  (validate_cidr s).2 = true ->
  string_forall cidr_char s = true
  /\ (length (Py.split "/" s) <= 2)%nat
  /\ s <> "".
Proof.
  intros Hs. apply validate_cidr_shape in Hs. split; [now apply cidr_shape_chars|].
  destruct Hs as (addr & Hw & Hs).
  assert (Hne : addr <> "").
  { destruct Hw as (a & b & c & d & Ha & _ & _ & _ & ->).
    apply dotted_quad_nonempty. unfold is_octet in Ha. lia. }
  destruct Hs as [-> | (mask & Hm & ->)].
  - rewrite split_no_sep by now apply well_formed_no_slash.
    split; [simpl; lia | exact Hne].
  - rewrite split_append_sep_str, !split_no_sep
      by first [apply well_formed_no_slash; assumption
               | apply mask_text_no_slash; assumption].
    split; [simpl; lia|]. destruct addr; [contradiction | discriminate].
Qed.

Lemma validate_cidr_characters_witness :
  string_forall cidr_char "10.0.0.0/255.0.0.0" = true
  /\ (length (Py.split "/" "10.0.0.0/255.0.0.0") <= 2)%nat
  /\ "10.0.0.0/255.0.0.0" <> "".
Proof.
  apply (validate_cidr_characters "10.0.0.0/255.0.0.0").
  vm_compute. reflexivity.
Defined.

(** *** An address alone, and a mask written as a dotted quad *)

Lemma IPv4Network_mask a b c d mask nm p :
  is_octet a -> is_octet b -> is_octet c -> is_octet d -> 0 <= p <= 32 ->
  string_forall (differs "/") mask = true ->
  ipaddress._make_netmask (ipaddress.MaskStr mask) = Ok (nm, p) ->
  nm = ipaddress._ip_int_from_prefix p ->
  (validate_cidr (dotted_quad a b c d +:+ "/" +:+ mask)).2
  = (ip_value a b c d mod 2 ^ (32 - p) =? 0).
Proof.
  intros Ha Hb Hc Hd Hp Hmask Hnm ->. unfold validate_cidr, ipaddress.IPv4Network.
  rewrite split_addr_prefix_slash;
    [|apply dotted_quad_no_slash; unfold is_octet in *; lia | assumption].
  cbn [rbind]. rewrite IPv4Address_dotted_quad by assumption.
  cbn [rbind]. rewrite Hnm. cbn [rbind].
  rewrite host_bits_check by (try apply ip_value_range; assumption).
  destruct (ip_value a b c d mod 2 ^ (32 - p) =? 0); reflexivity.
Qed.

Lemma make_netmask_netmask p :
  0 <= p <= 32 ->
  string_forall (differs "/") (quad_text (netmask_value p)) = true
  /\ ipaddress._make_netmask (ipaddress.MaskStr (quad_text (netmask_value p)))
     = Ok (ipaddress._ip_int_from_prefix p, p).
Proof.
  intros Hp.
  pose proof (range_check
    (fun p =>
       string_forall (differs "/") (quad_text (netmask_value p))
       && match ipaddress._make_netmask
                  (ipaddress.MaskStr (quad_text (netmask_value p))) with
          | Ok (nm, q) => (nm =? ipaddress._ip_int_from_prefix p) && (q =? p)
          | Raise _ => false
          end) 0 33 ltac:(vm_compute; reflexivity) p ltac:(lia)) as H.
  cbv beta in H. apply andb_true_iff in H as [H1 H2]. split; [exact H1|].
  destruct (ipaddress._make_netmask _) as [[nm q]|]; [|discriminate].
  apply andb_true_iff in H2 as [->%Z.eqb_eq ->%Z.eqb_eq]. reflexivity.
Qed.

Lemma make_netmask_hostmask p :
  1 <= p <= 31 ->
  string_forall (differs "/") (quad_text (hostmask_value p)) = true
  /\ ipaddress._make_netmask (ipaddress.MaskStr (quad_text (hostmask_value p)))
     = Ok (ipaddress._ip_int_from_prefix p, p).
Proof.
  intros Hp.
  pose proof (range_check
    (fun p =>
       string_forall (differs "/") (quad_text (hostmask_value p))
       && match ipaddress._make_netmask
                  (ipaddress.MaskStr (quad_text (hostmask_value p))) with
          | Ok (nm, q) => (nm =? ipaddress._ip_int_from_prefix p) && (q =? p)
          | Raise _ => false
          end) 1 31 ltac:(vm_compute; reflexivity) p ltac:(lia)) as H.
  cbv beta in H. apply andb_true_iff in H as [H1 H2]. split; [exact H1|].
  destruct (ipaddress._make_netmask _) as [[nm q]|]; [|discriminate].
  apply andb_true_iff in H2 as [->%Z.eqb_eq ->%Z.eqb_eq]. reflexivity.
Qed.

(** X1: a well-formed address without ["/"] is accepted, as the network of
    that one address, and nothing is printed. *)
Theorem validate_cidr_bare_address (a b c d : Z) :
  is_octet a -> is_octet b -> is_octet c -> is_octet d ->
  validate_cidr (dotted_quad a b c d) = ([], true).
Proof.
  intros Ha Hb Hc Hd.
  unfold validate_cidr, ipaddress.IPv4Network, ipaddress._split_addr_prefix,
    ipaddress._split_optional_netmask.
  rewrite split_no_sep
    by (apply dotted_quad_no_slash; unfold is_octet in *; lia).
  cbn [length Nat.ltb Nat.leb rbind].
  rewrite IPv4Address_dotted_quad by assumption. cbn [rbind].
  change (ipaddress._make_netmask (ipaddress.MaskInt ipaddress._max_prefixlen))
    with (Ok (A := Z * Z) (ipaddress._ip_int_from_prefix 32, 32)).
  cbn [rbind].
  rewrite host_bits_check by (try apply ip_value_range; assumption || lia).
  change (32 - 32) with 0. rewrite Z.pow_0_r, Z.mod_1_r. reflexivity.
Qed.

Lemma validate_cidr_bare_address_witness :
  validate_cidr "192.168.1.7" = ([], true).
Proof.
  apply (validate_cidr_bare_address 192 168 1 7); unfold is_octet; lia.
Defined.

(** X2: with the mask written as the dotted quad of a netmask
    (255.255.255.0 for 24), or for the lengths 1..31 as the dotted quad of
    a host mask (0.0.0.255 for 24), [validate_cidr] answers as for the
    prefix length itself: [True] exactly when the address has no bit set
    below the prefix. *)
Theorem validate_cidr_mask_forms (a b c d p : Z) :
  is_octet a -> is_octet b -> is_octet c -> is_octet d -> 0 <= p <= 32 ->
  (validate_cidr (dotted_quad a b c d +:+ "/" +:+ quad_text (netmask_value p))).2
  = (ip_value a b c d mod 2 ^ (32 - p) =? 0)
  /\ (1 <= p <= 31 ->
      (validate_cidr (dotted_quad a b c d +:+ "/" +:+ quad_text (hostmask_value p))).2
      = (ip_value a b c d mod 2 ^ (32 - p) =? 0)).
Proof.
  intros Ha Hb Hc Hd Hp. split.
  - destruct (make_netmask_netmask p Hp) as [H1 H2].
    eapply IPv4Network_mask; eauto.
  - intros Hp'. destruct (make_netmask_hostmask p Hp') as [H1 H2].
    eapply IPv4Network_mask; eauto.
Qed.

Lemma validate_cidr_mask_forms_witness :
  (validate_cidr "10.1.0.0/255.255.0.0").2 = true
  /\ (validate_cidr "10.1.0.0/0.0.255.255").2 = true.
Proof.
  destruct (validate_cidr_mask_forms 10 1 0 0 16) as [H1 H2];
    try (unfold is_octet; lia).
  split; [exact H1 | apply H2; lia].
Defined.

(** ** More on the output file name *)

Lemma translate_append f (a b : string) :
  translate f (a +:+ b) = translate f a +:+ translate f b.
Proof. induction a as [|x a IH]; simpl; [reflexivity | now rewrite IH]. Qed.

Lemma string_forall_translate P f s :
  string_forall P (translate f s) = string_forall (fun c => P (f c)) s.
Proof. induction s as [|x s IH]; simpl; [reflexivity | now rewrite IH]. Qed.

Lemma string_forall_true P s :
  (forall c, P c = true) -> string_forall P s = true.
Proof.
  intros HP. induction s as [|x s IH]; simpl; [reflexivity|]. now rewrite HP, IH.
Qed.

Lemma zeros_digits k : string_forall is_ascii_digit (Py.zeros k) = true.
Proof. induction k as [|k IH]; simpl; [reflexivity | exact IH]. Qed.

Lemma str_digit_or_minus n : string_forall digit_or_minus (Py.str n) = true.
Proof.
  assert (Hd : forall s, string_forall is_ascii_digit s = true ->
                         string_forall digit_or_minus s = true).
  { intros s. apply string_forall_impl. intros c Hc. unfold digit_or_minus.
    now rewrite Hc. }
  destruct (Z.lt_ge_cases n 0) as [Hneg|Hpos].
  - destruct (str_negative n Hneg) as (s & -> & Hs). simpl. now apply Hd.
  - now apply Hd, str_nonneg.
Qed.

Lemma zfill_digit_or_minus k n : string_forall digit_or_minus (Py.zfill k n) = true.
Proof.
  unfold Py.zfill. rewrite string_forall_append, str_digit_or_minus, andb_true_r.
  generalize (k - String.length (Py.str n))%nat. intros m.
  induction m as [|m IH]; simpl; [reflexivity | exact IH].
Qed.

(** The time stamp of any clock value has neither a dot nor a slash. *)
Lemma timestamp_no_sep clock sep :
  digit_or_minus sep = false -> sep <> "_"%char ->
  string_forall (differs sep) (datetime.strftime clock "%Y%m%d_%H%M%S") = true.
Proof.
  intros Hsep Hus.
  assert (Hz : forall k n, string_forall (differs sep) (Py.zfill k n) = true).
  { intros k n. generalize (zfill_digit_or_minus k n).
    apply string_forall_impl. intros c Hc. unfold differs.
    apply negb_true_iff, Ascii.eqb_neq. intros ->. congruence. }
  rewrite strftime_timestamp, !string_forall_append, !Hz.
  simpl. unfold differs. rewrite !andb_true_r.
  apply negb_true_iff, Ascii.eqb_neq. congruence.
Qed.

Lemma safe_target_no_sep target sep :
  sep = "."%char \/ sep = "/"%char ->
  string_forall (differs sep) (translate safe_char target) = true.
Proof.
  intros Hsep. rewrite string_forall_translate. apply string_forall_true.
  intros c. unfold differs. apply negb_true_iff, Ascii.eqb_neq.
  destruct (safe_char_safe c) as [H1 H2]. destruct Hsep as [-> | ->]; assumption.
Qed.

Lemma effective_format_no_sep output_format sep :
  sep = "."%char \/ sep = "/"%char ->
  string_forall (differs sep) (effective_format output_format) = true.
Proof.
  intros Hsep.
  destruct (valid_formats_cases _ (effective_format_valid output_format))
    as [-> | [-> | [-> | ->]]]; destruct Hsep as [-> | ->]; reflexivity.
Qed.

(** X4: whatever the target, the clock and the requested format, the file
    name that [scan_network] builds has no ["/"], so it names a file of
    the current directory, and exactly one ["."], the one in front of the
    extension. *)
Theorem generate_unique_filename_plain
    (clock : datetime.datetime) (output_format target : string) :
  let fmt := effective_format output_format in
  let filename := generate_unique_filename clock fmt target in
  string_forall (differs "/") filename = true
  /\ exists stem,
       string_forall (differs ".") stem = true
       /\ filename = stem +:+ "." +:+ fmt
       /\ Py.split "." filename = [stem; fmt].
Proof.
  cbv zeta. unfold generate_unique_filename. rewrite safe_target_translate.
  split.
  - rewrite !string_forall_append.
    rewrite (safe_target_no_sep target "/") by now right.
    rewrite (timestamp_no_sep clock "/") by (reflexivity || discriminate).
    rewrite (effective_format_no_sep output_format "/") by now right.
    reflexivity.
  - exists ("nmap_scan_" +:+ translate safe_char target +:+ "_"
            +:+ datetime.strftime clock "%Y%m%d_%H%M%S").
    assert (Hstem : string_forall (differs ".")
              ("nmap_scan_" +:+ translate safe_char target +:+ "_"
               +:+ datetime.strftime clock "%Y%m%d_%H%M%S") = true).
    { rewrite !string_forall_append.
      rewrite (safe_target_no_sep target ".") by now left.
      rewrite (timestamp_no_sep clock ".") by (reflexivity || discriminate).
      reflexivity. }
    split; [exact Hstem|].
    assert (Heq : "nmap_scan_" +:+ translate safe_char target +:+ "_"
                  +:+ datetime.strftime clock "%Y%m%d_%H%M%S" +:+ "."
                  +:+ effective_format output_format
                  = ("nmap_scan_" +:+ translate safe_char target +:+ "_"
                     +:+ datetime.strftime clock "%Y%m%d_%H%M%S")
                    +:+ "." +:+ effective_format output_format)
      by (rewrite !append_assoc; reflexivity).
    split; [exact Heq|].
    rewrite Heq, split_append_sep_str, (split_no_sep "." _ Hstem).
    rewrite split_no_sep by (apply effective_format_no_sep; now left).
    reflexivity.
Qed.

(** *** The file name determines the scan *)

Lemma append_inj_l (a1 a2 b1 b2 : string) :
  String.length a1 = String.length a2 ->
  a1 +:+ b1 = a2 +:+ b2 -> a1 = a2 /\ b1 = b2.
Proof.
  revert a2. induction a1 as [|x a1 IH]; intros [|y a2] Hlen H;
    simpl in *; try discriminate.
  - split; [reflexivity | exact H].
  - injection H as -> H. injection Hlen as Hlen.
    destruct (IH _ Hlen H) as [-> ->]. split; reflexivity.
Qed.

Lemma append_inj_r (a1 a2 b1 b2 : string) :
  String.length b1 = String.length b2 ->
  a1 +:+ b1 = a2 +:+ b2 -> a1 = a2 /\ b1 = b2.
Proof.
  intros Hlen H. apply append_inj_l; [|exact H].
  apply (f_equal String.length) in H. rewrite !length_append in H. lia.
Qed.

Lemma append_dot_inj (a1 a2 b1 b2 : string) :
  string_forall (differs ".") a1 = true ->
  string_forall (differs ".") a2 = true ->
  a1 +:+ "." +:+ b1 = a2 +:+ "." +:+ b2 -> a1 = a2 /\ b1 = b2.
Proof.
  intros H1 H2 H.
  pose proof (f_equal (Py.split ".") H) as Hs.
  rewrite !split_append_sep_str in Hs.
  rewrite (split_no_sep "." a1), (split_no_sep "." a2) in Hs by assumption.
  cbn [app] in Hs. injection Hs as -> _. split; [reflexivity|].
  apply (inj (String.append a2)) in H. now injection H.
Qed.

Lemma numeral_inj k s v1 v2 : numeral k s v1 -> numeral k s v2 -> v1 = v2.
Proof. intros (_ & _ & <-) (_ & _ & <-). reflexivity. Qed.

Lemma timestamp_length clock :
  datetime.valid clock ->
  String.length (datetime.strftime clock "%Y%m%d_%H%M%S") = 15%nat.
Proof.
  intros (Hy & Hm & Hd & HH & HM & HS). rewrite strftime_timestamp.
  rewrite !length_append.
  destruct (zfill_4 (datetime.year clock)) as (-> & _); [lia|].
  destruct (zfill_2 (datetime.month clock)) as (-> & _); [lia|].
  destruct (zfill_2 (datetime.day clock)) as (-> & _); [lia|].
  destruct (zfill_2 (datetime.hour clock)) as (-> & _); [lia|].
  destruct (zfill_2 (datetime.minute clock)) as (-> & _); [lia|].
  destruct (zfill_2 (datetime.second clock)) as (-> & _); [lia|].
  reflexivity.
Qed.

Lemma timestamp_inj c1 c2 :
  datetime.valid c1 -> datetime.valid c2 ->
  datetime.strftime c1 "%Y%m%d_%H%M%S" = datetime.strftime c2 "%Y%m%d_%H%M%S" ->
  c1 = c2.
Proof.
  intros (Hy1 & Hm1 & Hd1 & HH1 & HM1 & HS1) (Hy2 & Hm2 & Hd2 & HH2 & HM2 & HS2) H.
  rewrite !strftime_timestamp in H.
  pose proof (zfill_4 (datetime.year c1) ltac:(lia)) as Y1.
  pose proof (zfill_4 (datetime.year c2) ltac:(lia)) as Y2.
  pose proof (zfill_2 (datetime.month c1) ltac:(lia)) as M1.
  pose proof (zfill_2 (datetime.month c2) ltac:(lia)) as M2.
  pose proof (zfill_2 (datetime.day c1) ltac:(lia)) as D1.
  pose proof (zfill_2 (datetime.day c2) ltac:(lia)) as D2.
  pose proof (zfill_2 (datetime.hour c1) ltac:(lia)) as h1.
  pose proof (zfill_2 (datetime.hour c2) ltac:(lia)) as h2.
  pose proof (zfill_2 (datetime.minute c1) ltac:(lia)) as m1.
  pose proof (zfill_2 (datetime.minute c2) ltac:(lia)) as m2.
  pose proof (zfill_2 (datetime.second c1) ltac:(lia)) as s1.
  pose proof (zfill_2 (datetime.second c2) ltac:(lia)) as s2.
  apply append_inj_l in H as [EY H]; [|now rewrite (proj1 Y1), (proj1 Y2)].
  apply append_inj_l in H as [EM H]; [|now rewrite (proj1 M1), (proj1 M2)].
  apply append_inj_l in H as [ED H]; [|now rewrite (proj1 D1), (proj1 D2)].
  apply append_inj_l in H as [_ H]; [|reflexivity].
  apply append_inj_l in H as [Eh H]; [|now rewrite (proj1 h1), (proj1 h2)].
  apply append_inj_l in H as [Em Es]; [|now rewrite (proj1 m1), (proj1 m2)].
  rewrite EY in Y1. rewrite EM in M1. rewrite ED in D1.
  rewrite Eh in h1. rewrite Em in m1. rewrite Es in s1.
  destruct c1, c2; simpl in *. f_equal; eapply numeral_inj; eassumption.
Qed.

(** *** The separators of an accepted text *)

Lemma seps_append (a b : string) : seps (a +:+ b) = seps a ++ seps b.
Proof.
  induction a as [|x a IH]; simpl; [reflexivity|].
  destruct (is_sep x); simpl; now rewrite IH.
Qed.

Lemma seps_digits s : string_forall is_ascii_digit s = true -> seps s = [].
Proof.
  induction s as [|x s IH]; simpl; [reflexivity|].
  rewrite andb_true_iff. intros [Hx Hs].
  replace (is_sep x) with false; [now apply IH|].
  symmetry. unfold is_sep. apply orb_false_iff.
  split; apply Ascii.eqb_neq; intros ->; discriminate Hx.
Qed.

Lemma seps_well_formed addr :
  well_formed_ipv4 addr -> seps addr = ["."; "."; "."]%char.
Proof.
  intros (a & b & c & d & Ha & Hb & Hc & Hd & ->). unfold dotted_quad.
  rewrite !seps_append.
  rewrite !(seps_digits (Py.str _))
    by (apply str_nonneg; unfold is_octet in *; lia).
  reflexivity.
Qed.

Lemma cidr_shape_seps s :
  cidr_shape s ->
  seps s = ["."; "."; "."]%char
  \/ seps s = ["."; "."; "."; "/"]%char
  \/ seps s = ["."; "."; "."; "/"; "."; "."; "."]%char.
Proof.
  intros (addr & Hw & [-> | (mask & Hm & ->)]).
  - left. now apply seps_well_formed.
  - rewrite !seps_append, (seps_well_formed addr Hw).
    destruct Hm as [[Hd _] | Hm].
    + right; left. now rewrite (seps_digits mask Hd).
    + right; right. now rewrite (seps_well_formed mask Hm).
Qed.

Lemma cidr_char_cases c :
  cidr_char c = true ->
  (is_sep c = true /\ safe_char c = "_"%char)
  \/ (is_sep c = false /\ safe_char c = c /\ c <> "_"%char).
Proof.
  unfold cidr_char, is_sep, safe_char. intros H.
  destruct (Ascii.eqb_spec c "/") as [Hs|Hs]; [subst c; left; split; reflexivity|].
  destruct (Ascii.eqb_spec c ".") as [Hd|Hd]; [subst c; left; split; reflexivity|].
  right. split; [reflexivity|]. split; [reflexivity|]. intros ->. discriminate H.
Qed.

Lemma underscores_translate s :
  string_forall cidr_char s = true ->
  underscores (translate safe_char s) = length (seps s).
Proof.
  induction s as [|x s IH]; simpl; [reflexivity|].
  rewrite andb_true_iff. intros [Hx Hs].
  destruct (cidr_char_cases x Hx) as [[-> ->] | (-> & -> & Hne)].
  - simpl. now rewrite IH.
  - apply Ascii.eqb_neq in Hne. rewrite Hne. now apply IH.
Qed.

Lemma translate_safe_inj s1 : forall s2,
  string_forall cidr_char s1 = true -> string_forall cidr_char s2 = true ->
  seps s1 = seps s2 ->
  translate safe_char s1 = translate safe_char s2 -> s1 = s2.
Proof.
  induction s1 as [|x s1 IH]; intros [|y s2] H1 H2 Hseps H;
    simpl in *; try discriminate; [reflexivity|].
  apply andb_true_iff in H1 as [Hx H1], H2 as [Hy H2].
  injection H as Hxy H.
  destruct (cidr_char_cases x Hx) as [[Sx Tx] | (Sx & Tx & Nx)];
    destruct (cidr_char_cases y Hy) as [[Sy Ty] | (Sy & Ty & Ny)];
    rewrite Sx, Sy in Hseps; rewrite Tx, Ty in Hxy.
  - injection Hseps as -> Hseps. f_equal. now apply IH.
  - congruence.
  - congruence.
  - subst y. f_equal. now apply IH.
Qed.

Lemma safe_target_inj t1 t2 :
  cidr_shape t1 -> cidr_shape t2 ->
  translate safe_char t1 = translate safe_char t2 -> t1 = t2.
Proof.
  intros S1 S2 H.
  pose proof (cidr_shape_chars _ S1) as C1.
  pose proof (cidr_shape_chars _ S2) as C2.
  apply translate_safe_inj; try assumption.
  pose proof (f_equal underscores H) as Hu.
  rewrite !underscores_translate in Hu by assumption.
  destruct (cidr_shape_seps _ S1) as [E1 | [E1 | E1]];
    destruct (cidr_shape_seps _ S2) as [E2 | [E2 | E2]];
    rewrite E1, E2 in *; try discriminate Hu; reflexivity.
Qed.

(** X5: among valid clock values and targets that [validate_cidr]
    accepts, the file name determines the target, the second and the
    format: two scans get the same name only if they agree on all three. *)
Theorem generate_unique_filename_injective
    (c1 c2 : datetime.datetime) (f1 f2 t1 t2 : string) :
  datetime.valid c1 -> datetime.valid c2 ->
  (validate_cidr t1).2 = true -> (validate_cidr t2).2 = true ->
  generate_unique_filename c1 f1 t1 = generate_unique_filename c2 f2 t2 ->
  c1 = c2 /\ f1 = f2 /\ t1 = t2.
Proof.
  intros V1 V2 A1%validate_cidr_shape A2%validate_cidr_shape H.
  unfold generate_unique_filename in H. rewrite !safe_target_translate in H.
  pose proof (timestamp_length c1 V1) as L1.
  pose proof (timestamp_length c2 V2) as L2.
  pose proof (timestamp_no_sep c1 "." eq_refl ltac:(discriminate)) as N1.
  pose proof (timestamp_no_sep c2 "." eq_refl ltac:(discriminate)) as N2.
  pose proof (timestamp_inj c1 c2 V1 V2) as Hts.
  set (ts1 := datetime.strftime c1 "%Y%m%d_%H%M%S") in *.
  set (ts2 := datetime.strftime c2 "%Y%m%d_%H%M%S") in *.
  apply (inj (String.append "nmap_scan_")) in H.
  rewrite <- !(append_assoc _ "_" (_ +:+ "." +:+ _)) in H.
  rewrite <- !(append_assoc _ ts1), <- !(append_assoc _ ts2) in H.
  apply append_dot_inj in H as [H ->].
  - rewrite !append_assoc in H.
    apply append_inj_r in H as [HT Hs]; [|simpl; now rewrite L1, L2].
    injection Hs as Hs.
    split; [now apply Hts|]. split; [reflexivity|].
    now apply safe_target_inj.
  - rewrite !string_forall_append, N1.
    now rewrite (safe_target_no_sep t1 ".") by now left.
  - rewrite !string_forall_append, N2.
    now rewrite (safe_target_no_sep t2 ".") by now left.
Qed.

Lemma generate_unique_filename_injective_witness :
  sample_clock = sample_clock /\ "xml" = "xml" /\ "10.0.0.0/8" = "10.0.0.0/8".
Proof.
  apply (generate_unique_filename_injective sample_clock sample_clock
           "xml" "xml" "10.0.0.0/8" "10.0.0.0/8");
    try (unfold datetime.valid; simpl; lia); vm_compute; reflexivity.
Defined.

(** ** More on the progress loop *)

Lemma loop_events_cons n line rest :
  loop_events n (line :: rest)
  = match utf8.decode line with
    | None => []
    | Some _ =>
        line_events line ++ loop_events (if line_matches line then n + 10 else n) rest
    end.
Proof.
  unfold loop_events, line_events, line_matches. simpl. unfold bind, progress_step.
  destruct (utf8.decode line) as [text|]; [|reflexivity].
  destruct (utf8.contains ports_scanned text); simpl;
    match goal with
    | |- context [progress_loop ?m rest ?s] =>
        destruct (progress_loop m rest s) as [[o2 s2] r2]
    end; reflexivity.
Qed.

Lemma loop_decodable pre : forall n,
  Forall decodable pre ->
  loop_events n pre = pre ≫= line_events
  /\ loop_result n pre = Ok (n + 10 * matching_lines pre).
Proof.
  induction pre as [|line pre IH]; intros n Hd.
  - split; [reflexivity|]. rewrite loop_result_nil. simpl. f_equal. lia.
  - inversion Hd as [|? ? Hl Hpre]; subst.
    rewrite loop_events_cons, loop_result_cons.
    unfold decodable in Hl. destruct (utf8.decode line) eqn:E; [|contradiction].
    destruct (IH (if line_matches line then n + 10 else n) Hpre) as [-> ->].
    split; [reflexivity|]. simpl. f_equal. destruct (line_matches line); lia.
Qed.

(** X7: the loop sleeps once for every line it has decoded and updates
    the bar by 10 just before the sleep of a line that contains
    "Ports scanned"; at the first line that is not UTF-8 it stops with
    [UnicodeDecodeError], without an event for that line or for any line
    after it. *)
Theorem progress_loop_trace (n : Z) (pre : list (list byte)) :
  Forall decodable pre ->
  (loop_events n pre = pre ≫= line_events
   /\ loop_result n pre = Ok (n + 10 * matching_lines pre))
  /\ forall bad post,
       utf8.decode bad = None ->
       loop_events n (pre ++ bad :: post) = pre ≫= line_events
       /\ loop_result n (pre ++ bad :: post) = Raise UnicodeDecodeError.
Proof.
  intros Hd. split; [now apply loop_decodable|].
  intros bad post Hbad. revert n.
  induction pre as [|line pre IH]; intros n.
  - cbn [app]. rewrite loop_events_cons, loop_result_cons, Hbad.
    split; reflexivity.
  - inversion Hd as [|? ? Hl Hpre]; subst. cbn [app].
    rewrite loop_events_cons, loop_result_cons.
    unfold decodable in Hl. destruct (utf8.decode line) eqn:E; [|contradiction].
    destruct (IH Hpre (if line_matches line then n + 10 else n)) as [-> ->].
    split; reflexivity.
Qed.

Lemma progress_loop_trace_witness :
  loop_events 0 [utf8.bytes_of "Ports scanned: 10"; utf8.bytes_of "Nmap done"]
  = [EPbarUpdate 10; ESleep; ESleep]
  /\ loop_events 0 [utf8.bytes_of "Ports scanned: 10"; utf8.bytes_of "Nmap done";
                    [xff]; utf8.bytes_of "Ports scanned: 20"]
     = [EPbarUpdate 10; ESleep; ESleep].
Proof.
  destruct (progress_loop_trace 0
    [utf8.bytes_of "Ports scanned: 10"; utf8.bytes_of "Nmap done"]) as [[H1 _] H2].
  - repeat constructor; discriminate.
  - split; [exact H1|].
    exact (proj1 (H2 [xff] [utf8.bytes_of "Ports scanned: 20"] eq_refl)).
Defined.



(** ** How [scan_network] ends *)

Lemma loop_result_cases n lines :
  (exists m, loop_result n lines = Ok m)
  \/ loop_result n lines = Raise UnicodeDecodeError.
Proof.
  destruct (loop_result n lines) as [m|e] eqn:H; [left; eauto|].
  right. f_equal. unfold loop_result in H. eapply progress_loop_raises, H.
Qed.

Lemma scan_network_returned w target options output_format stdin hosts :
  port_scan w target options = Some hosts ->
  (scan_network w target options output_format stdin).2 = Ok tt
  \/ (scan_network w target options output_format stdin).2 = Raise UnicodeDecodeError.
Proof.
  intros Hscan.
  destruct (scan_network_unfold w target options output_format stdin hosts Hscan)
    as (flag & _ & ->).
  cbn [snd].
  destruct (loop_result_cases 0 (popen_stdout w
    (nmap_command flag (generate_unique_filename (now w)
       (effective_format output_format) target) options target)))
    as [[m ->] | ->]; [now left | now right].
Qed.

Lemma scan_network_not_eof w target options output_format stdin :
  (scan_network w target options output_format stdin).2 <> Raise EOFError.
Proof.
  destruct (port_scan w target options) as [hosts|] eqn:Hscan.
  - destruct (scan_network_returned w target options output_format stdin hosts Hscan)
      as [-> | ->]; discriminate.
  - rewrite scan_network_failed by assumption. cbn [snd].
    destruct (port_scan_failure w target options); discriminate.
Qed.





(** ** The whole session *)

Lemma get_user_input_run before : forall line rest,
  Forall rejected before ->
  (validate_cidr (Py.strip line)).2 = true ->
  get_user_input (before ++ line :: rest)
  = ((before ≫= fun _ => rejected_turn) ++ [EInput cidr_prompt], rest,
     Ok (Py.strip line)).
Proof.
  induction before as [|l before IH]; intros line rest Hrej Hok; cbn [app].
  - cbn [get_user_input]. rewrite validate_cidr_events, Hok. reflexivity.
  - inversion Hrej as [|? ? Hl Hbefore]; subst.
    cbn [get_user_input]. rewrite validate_cidr_events.
    unfold rejected in Hl. rewrite Hl.
    rewrite (IH line rest Hbefore Hok). reflexivity.
Qed.

Lemma scan_network_stdin w target options output_format stdin :
  (scan_network w target options output_format stdin).1.2 = stdin.
Proof.
  destruct (port_scan w target options) as [hosts|] eqn:Hp.
  - destruct (scan_network_unfold w target options output_format stdin hosts Hp)
      as (flag & _ & ->). reflexivity.
  - now rewrite scan_network_failed.
Qed.

(** X10: after an answer other than yes, rejected lines, an accepted line
    and a format line, [main] has printed the help prompt, one prompt and
    one message per rejected line, the last CIDR prompt and the format
    prompt, and then does what [scan_network] does on the stripped
    accepted line, the default options and the stripped, lower-cased
    format line; the lines after the format line are left unread. *)
Theorem main_session
    (w : world) (answer line format_line : string) (before rest : list string) :
  Py.lower (Py.strip answer) <> "yes" ->
  Forall rejected before ->
  (validate_cidr (Py.strip line)).2 = true ->
  let scan :=
    scan_network w (Py.strip line) default_options
      (Py.lower (Py.strip format_line)) rest in
  main w (answer :: before ++ line :: format_line :: rest)
  = (EInput help_prompt :: (before ≫= fun _ => rejected_turn)
       ++ EInput cidr_prompt :: EInput format_prompt :: scan.1.1,
     rest, scan.2).
Proof.
  intros Hno Hrej Hok. cbv zeta.
  rewrite main_scan_flow by assumption.
  unfold bind at 1, emit. cbv beta iota. unfold bind at 1.
  rewrite (get_user_input_run before line (format_line :: rest) Hrej Hok).
  unfold bind at 1, input. cbv beta iota.
  pose proof (scan_network_stdin w (Py.strip line) default_options
                (Py.lower (Py.strip format_line)) rest) as Hs.
  destruct (scan_network w (Py.strip line) default_options
              (Py.lower (Py.strip format_line)) rest) as [[out s] r].
  cbn [fst snd] in *. subst s.
  cbn [app]. rewrite <- app_assoc. reflexivity.
Qed.

Lemma main_session_witness :
  (main sample_world ["no"; "bad"; " 192.168.1.0/30 "; " XML"; "left over"]).1.2
  = ["left over"].
Proof.
  pose proof (main_session sample_world "no" " 192.168.1.0/30 " " XML" ["bad"]
                ["left over"]) as H.
  cbn [app] in H. rewrite H.
  - reflexivity.
  - vm_compute. discriminate.
  - repeat constructor.
  - vm_compute. reflexivity.
Defined.

(** *** What reaches the shell *)

Lemma scan_network_popen w target options output_format stdin cmd :
  EPopen cmd ∈ (scan_network w target options output_format stdin).1.1 ->
  cmd = nmap_command (output_flag_for (effective_format output_format))
          (generate_unique_filename (now w) (effective_format output_format) target)
          options target.
Proof.
  destruct (port_scan w target options) as [hosts|] eqn:Hscan.
  - destruct (scan_network_unfold w target options output_format stdin hosts Hscan)
      as (flag & Hflag & ->).
    rewrite (output_flag_for_lookup _ (effective_format_valid output_format)) in Hflag.
    injection Hflag as <-.
    cbn [fst]. intros Hin. apply scan_events_cases in Hin. cbv zeta in Hin.
    destruct Hin as [H | [(s & H & _) | [[H _] | [[H _] | [H | [H | [H | [H | H]]]]]]]];
      try discriminate H.
    now injection H.
  - intros [=]%scan_network_failed_events. assumption.
Qed.

Lemma main_popen w stdin cmd :
  EPopen cmd ∈ (run (main w) stdin).1 ->
  exists target output_format,
    (validate_cidr target).2 = true
    /\ cmd = nmap_command (output_flag_for (effective_format output_format))
               (generate_unique_filename (now w)
                  (effective_format output_format) target)
               default_options target.
Proof.
  destruct stdin as [|answer stdin].
  - unfold run, main, bind, input. cbn [fst].
    intros [=]%list_elem_of_singleton.
  - destruct (String.eqb_spec (Py.lower (Py.strip answer)) "yes") as [Hyes|Hno].
    + unfold run. rewrite main_help by assumption. cbn [fst].
      rewrite !elem_of_cons, elem_of_nil. intros [[=] | [[=] | []]].
    + unfold run. rewrite main_scan_flow by assumption.
      unfold bind at 1, emit. cbv beta iota. unfold bind at 1.
      pose proof (get_user_input_events stdin (EPopen cmd)) as Hev.
      destruct (get_user_input stdin) as [[o1 s1] [cidr|e]] eqn:Hg; cbn [fst] in Hev.
      * apply get_user_input_ok in Hg as (_ & _ & _ & _ & Hok & _ & _).
        unfold bind at 1, input.
        destruct s1 as [|line s2]; cbn [fst app].
        -- rewrite elem_of_cons, elem_of_app, list_elem_of_singleton.
           intros [[=] | [H | [=]]]. destruct (Hev H) as [[=] | [=]].
        -- pose proof (scan_network_popen w cidr default_options
             (Py.lower (Py.strip line)) s2 cmd) as Hs.
           destruct (scan_network w cidr default_options _ s2) as [[o3 s3] r3].
           cbn [fst] in *.
           rewrite elem_of_cons, elem_of_app, elem_of_cons.
           intros [[=] | [H | [[=] | H]]].
           ++ destruct (Hev H) as [[=] | [=]].
           ++ exists cidr, (Py.lower (Py.strip line)). split; [exact Hok | now apply Hs].
      * cbn [fst app]. rewrite elem_of_cons.
        intros [[=] | H]. destruct (Hev H) as [[=] | [=]].
Qed.

Lemma shell_safe_digit c : is_ascii_digit c = true -> shell_safe c = true.
Proof.
  unfold is_ascii_digit, shell_safe. intros ->.
  rewrite !orb_true_r. reflexivity.
Qed.

Lemma shell_safe_cidr_char c :
  cidr_char c = true -> shell_safe c = true /\ shell_safe (safe_char c) = true.
Proof.
  intros Hc. destruct (cidr_char_cases c Hc) as [[Hs ->] | (Hs & -> & _)].
  - split; [|reflexivity]. unfold is_sep in Hs. apply orb_true_iff in Hs.
    destruct Hs as [->%Ascii.eqb_eq | ->%Ascii.eqb_eq]; reflexivity.
  - unfold cidr_char in Hc. unfold is_sep in Hs. apply orb_false_iff in Hs as [H1 H2].
    rewrite H1, H2, !orb_false_r in Hc. split; now apply shell_safe_digit.
Qed.

Lemma shell_safe_timestamp clock :
  string_forall shell_safe (datetime.strftime clock "%Y%m%d_%H%M%S") = true.
Proof.
  assert (Hz : forall k n, string_forall shell_safe (Py.zfill k n) = true).
  { intros k n. generalize (zfill_digit_or_minus k n).
    apply string_forall_impl. intros c Hc. unfold digit_or_minus in Hc.
    apply orb_true_iff in Hc as [Hc | ->%Ascii.eqb_eq];
      [now apply shell_safe_digit | reflexivity]. }
  rewrite strftime_timestamp, !string_forall_append, !Hz. reflexivity.
Qed.

Lemma shell_safe_format output_format :
  string_forall shell_safe (effective_format output_format) = true
  /\ string_forall shell_safe (output_flag_for (effective_format output_format)) = true.
Proof.
  destruct (valid_formats_cases _ (effective_format_valid output_format))
    as [-> | [-> | [-> | ->]]]; split; reflexivity.
Qed.

(** X9: whatever is typed at the prompts, every command line that [main]
    hands to the shell is made of letters, digits, spaces and the
    characters [- _ . /] only: no quote, semicolon, bar, ampersand, dollar
    sign, angle bracket or back-quote reaches the shell. *)
Theorem main_command_shell_safe (w : world) (stdin : list string) (cmd : string) :
  EPopen cmd ∈ (run (main w) stdin).1 -> string_forall shell_safe cmd = true.
Proof.
  intros (target & output_format & Hok & ->)%main_popen.
  apply validate_cidr_shape, cidr_shape_chars in Hok.
  assert (Ht : string_forall shell_safe target = true).
  { revert Hok. apply string_forall_impl. intros c Hc.
    now apply shell_safe_cidr_char. }
  assert (Hs : string_forall shell_safe (translate safe_char target) = true).
  { rewrite string_forall_translate. revert Hok. apply string_forall_impl.
    intros c Hc. now apply shell_safe_cidr_char. }
  destruct (shell_safe_format output_format) as [Hf Hflag].
  unfold nmap_command, generate_unique_filename.
  rewrite safe_target_translate, !string_forall_append.
  rewrite Hflag, Hs, Hf, Ht, shell_safe_timestamp. reflexivity.
Qed.

(** A session in which a range and a format with shell syntax are typed. *)
Lemma main_command_shell_safe_witness :
  string_forall shell_safe
    "nmap -oX nmap_scan_192_168_1_0_30_20240307_090500.xml -sS -sV -O -A -p 1-1000 192.168.1.0/30"
  = true.
Proof.
  apply (main_command_shell_safe sample_world
           ["no"; "192.168.1.0/30; ls"; "192.168.1.0/30"; "x'; ls"]).
  match goal with
  | |- _ ∈ ?l => let v := eval vm_compute in l in change l with v
  end.
  rewrite !elem_of_cons. do 13 right. left. reflexivity.
Defined.

Lemma main_run_not_yes w answer stdin :
  Py.lower (Py.strip answer) <> "yes" ->
  run (main w) (answer :: stdin)
  = match get_user_input stdin with
    | (o1, s1, Ok cidr) =>
        match s1 with
        | [] => (EInput help_prompt :: o1 ++ [EInput format_prompt], Raise EOFError)
        | line :: s2 =>
            let scan :=
              scan_network w cidr default_options (Py.lower (Py.strip line)) s2 in
            (EInput help_prompt :: o1 ++ EInput format_prompt :: scan.1.1, scan.2)
        end
    | (o1, s1, Raise e) => (EInput help_prompt :: o1, Raise e)
    end.
Proof.
  intros Hno. unfold run. rewrite main_scan_flow by assumption.
  unfold bind at 1, emit. cbv beta iota. unfold bind at 1.
  destruct (get_user_input stdin) as [[o1 s1] [cidr|e]]; [|reflexivity].
  unfold bind at 1, input. destruct s1 as [|line s2]; [reflexivity|].
  cbv zeta.
  destruct (scan_network w cidr default_options _ s2) as [[o3 s3] r3].
  reflexivity.
Qed.

(** X11: [main] ends with [EOFError] only before anything is scanned: when
    the input runs out, all it has done is to prompt and to print the
    message of [validate_cidr]; no python-nmap scan and no command has
    been started. *)
Theorem main_eof_before_scan (w : world) (stdin : list string) :
  (run (main w) stdin).2 = Raise EOFError ->
  forall e, e ∈ (run (main w) stdin).1 ->
            (exists prompt, e = EInput prompt) \/ e = EPrint invalid_cidr_message.
Proof.
  destruct stdin as [|answer stdin].
  - unfold run, main, bind, input. cbn [fst snd]. intros _ e ->%list_elem_of_singleton.
    left. eexists. reflexivity.
  - destruct (String.eqb_spec (Py.lower (Py.strip answer)) "yes") as [Hyes|Hno].
    + unfold run. rewrite main_help by assumption. cbn [snd]. discriminate.
    + rewrite main_run_not_yes by assumption.
      pose proof (get_user_input_events stdin) as Hev.
      destruct (get_user_input stdin) as [[o1 s1] [cidr|x]]; cbn [fst] in Hev.
      * destruct s1 as [|line s2]; cbn [fst snd].
        -- intros _ e. rewrite elem_of_cons, elem_of_app, list_elem_of_singleton.
           intros [-> | [H | ->]];
             [left; eexists; reflexivity | | left; eexists; reflexivity].
           destruct (Hev e H) as [-> | ->]; [left; eexists; reflexivity | now right].
        -- pose proof (scan_network_not_eof w cidr default_options
             (Py.lower (Py.strip line)) s2) as Hr.
           cbv zeta. cbn [snd]. intros Heof. now rewrite Heof in Hr.
      * cbn [fst snd]. intros _ e. rewrite elem_of_cons.
        intros [-> | H]; [left; eexists; reflexivity|].
        destruct (Hev e H) as [-> | ->]; [left; eexists; reflexivity | now right].
Qed.

Lemma main_eof_before_scan_witness :
  (exists prompt, EInput cidr_prompt = EInput prompt)
  \/ EInput cidr_prompt = EPrint invalid_cidr_message.
Proof.
  apply (main_eof_before_scan sample_world ["no"; "bad"]).
  - vm_compute. reflexivity.
  - match goal with
    | |- _ ∈ ?l => let v := eval vm_compute in l in change l with v
    end.
    rewrite !elem_of_cons. right. left. reflexivity.
Defined.
